(** * Chatbot: classification, reply and JSON-extraction pipeline

    A shallow embedding of [llms.py] (the Streamlit lab application) and
    [api.py] (the Flask endpoint), followed by the properties of the
    label normaliser, the structured-output parser and the orchestration
    functions.

    Conventions.
    - A Python [str] is a list of Unicode code points ([pystr]).
    - The text-generation service, [str.lower] (Unicode case tables),
      [json.loads], the iteration order of the [allowed] set literal and
      the Streamlit calls belong to the Python runtime, to a library or
      to the network, not to the repository: the functions take them as
      arguments, and the theorems hold for every choice of them.
      Reference instances ([ascii_lower], [Json.loads], [st_reference])
      make the functions executable on concrete text.
    - A Streamlit call may raise, as any call may; what the page shows
      is the list of the calls that returned. *)

From Stdlib Require Import String Ascii DecimalString.
From Stdlib Require Import List NArith ZArith Bool Lia Permutation.
Import ListNotations.

(* ================================================================== *)
(** * Python strings *)
(* ================================================================== *)

Module Str.

Definition codepoint := N.
Definition pystr := list codepoint.

(** An ASCII literal of the source as a [pystr]. *)
Definition py (s : string) : pystr :=
  map N_of_ascii (list_ascii_of_string s).
Arguments py s%_string.

(** The double quote, written by its code point. *)
Definition dq : pystr := [34%N].

Definition eqb (a b : pystr) : bool :=
  if list_eq_dec N.eq_dec a b then true else false.

(** [str.isspace] on one code point: the characters [str.strip()]
    removes when called without argument. *)
Definition isspace (c : codepoint) : bool :=
  ((9 <=? c) && (c <=? 13) || (28 <=? c) && (c <=? 32)
   || (c =? 133) || (c =? 160) || (c =? 5760)
   || (8192 <=? c) && (c <=? 8202)
   || (c =? 8232) || (c =? 8233) || (c =? 8239) || (c =? 8287)
   || (c =? 12288))%N.

Fixpoint dropwhile (p : codepoint -> bool) (s : pystr) : pystr :=
  match s with
  | [] => []
  | c :: t => if p c then dropwhile p t else s
  end.

Definition lstrip (s : pystr) : pystr := dropwhile isspace s.
Definition rstrip (s : pystr) : pystr := rev (dropwhile isspace (rev s)).

(** [s.strip()] *)
Definition strip (s : pystr) : pystr := rstrip (lstrip s).

(** [s.startswith(p)] *)
Fixpoint startswith (s p : pystr) {struct p} : bool :=
  match p, s with
  | [], _ => true
  | _ :: _, [] => false
  | a :: p', c :: s' => (a =? c)%N && startswith s' p'
  end.

(** [a in s]: substring containment. *)
Fixpoint contains (a s : pystr) : bool :=
  startswith s a ||
  match s with
  | [] => false
  | _ :: t => contains a t
  end.

(** [s.replace(old, new)] for a non-empty [old]: occurrences are found
    from left to right and do not overlap.  [skip] counts the characters
    of a matched occurrence still to be passed over. *)
Fixpoint replace_from (old new : pystr) (skip : nat) (s : pystr) : pystr :=
  match s with
  | [] => []
  | c :: t =>
      match skip with
      | S k => replace_from old new k t
      | O =>
          if startswith s old
          then new ++ replace_from old new (length old - 1) t
          else c :: replace_from old new 0 t
      end
  end.

(** [s.replace(old, new)].  With an empty [old] Python inserts [new]
    before every character and at the end. *)
Definition replace (s old new : pystr) : pystr :=
  match old with
  | [] => new ++ flat_map (fun c => c :: new) s
  | _ :: _ => replace_from old new 0 s
  end.

(** ASCII case folding: [str.lower] restricted to text whose cased
    characters are ASCII letters. *)
Definition ascii_lower_char (c : codepoint) : codepoint :=
  if ((65 <=? c) && (c <=? 90))%N then (c + 32)%N else c.

Definition ascii_lower (s : pystr) : pystr := map ascii_lower_char s.

(** Decimal rendering of a natural number, as [str(n)] does. *)
Definition of_nat (n : nat) : pystr :=
  py (NilZero.string_of_uint (Nat.to_uint n)).

(** [s.count(c, 0, pos)] for a single character. *)
Definition count_upto (c : codepoint) (s : pystr) (pos : nat) : nat :=
  length (filter (N.eqb c) (firstn pos s)).

End Str.
Import Str.

(* ================================================================== *)
(** * Python values, exceptions and results *)
(* ================================================================== *)

(** A Python [float] read from a JSON document is kept as the literal it
    was read from; its rounding to a double is not modelled. *)
Inductive pyfloat : Type :=
| FloatLit (intpart frac exp : pystr)
| FloatNaN
| FloatInf
| FloatNegInf.

(** The Python values [json.loads] can return. A [dict] keeps its items
    in insertion order. *)
#[warning="-register-all"]
Inductive pyval : Type :=
| PNone
| PBool (b : bool)
| PInt (z : Z)
| PFloat (f : pyfloat)
| PStr (s : pystr)
| PList (items : list pyval)
| PDict (items : list (pystr * pyval)).

(** [x is not None] *)
Definition is_not_None (v : pyval) : bool :=
  match v with PNone => false | _ => true end.

Inductive pyexn : Type :=
| JSONDecodeError (msg doc : pystr) (pos : nat)
| RecursionError (msg : pystr)
| UnicodeEncodeError (object : pystr) (start stop : nat)
| AttributeError (msg : pystr)
| Exception (msg : pystr).

Definition nl : codepoint := 10%N.

Definition hexdigit (n : N) : codepoint :=
  (if n <? 10 then 48 + n else 87 + n)%N.

(** Four lower-case hexadecimal digits, as in the escape [\udc80]. *)
Definition hex4_of (c : codepoint) : pystr :=
  [ hexdigit ((c / 4096) mod 16); hexdigit ((c / 256) mod 16);
    hexdigit ((c / 16) mod 16); hexdigit (c mod 16) ]%N.

Fixpoint takewhile (p : codepoint -> bool) (s : pystr) : pystr :=
  match s with
  | [] => []
  | c :: t => if p c then c :: takewhile p t else []
  end.

(** [str(e)].  A [JSONDecodeError] renders as
    [msg: line L column C (char P)]. *)
Definition str_exn (e : pyexn) : pystr :=
  match e with
  | JSONDecodeError msg doc pos =>
      let lineno := count_upto nl doc pos + 1 in
      let colno :=
        length (takewhile (fun c => negb (N.eqb c nl)) (rev (firstn pos doc))) + 1 in
      msg ++ py ": line " ++ of_nat lineno ++ py " column " ++ of_nat colno
          ++ py " (char " ++ of_nat pos ++ py ")"
  | RecursionError msg => msg
  | UnicodeEncodeError object start stop =>
      py "'utf-8' codec can't encode "
         ++ (if Nat.eqb stop (S start)
             then py "character '\u" ++ hex4_of (nth start object 0%N)
                     ++ py "' in position " ++ of_nat start
             else py "characters in position " ++ of_nat start ++ py "-"
                     ++ of_nat (stop - 1))
         ++ py ": surrogates not allowed"
  | AttributeError msg => msg
  | Exception msg => msg
  end.

(** The outcome of running Python code: a value, or a raised exception. *)
Inductive result (A : Type) : Type :=
| Ok (a : A)
| Raised (e : pyexn).
Arguments Ok {A} a.
Arguments Raised {A} e.

(* ================================================================== *)
(** * The standard library's JSON decoder *)
(* ================================================================== *)

(** Reference model of [json.loads] with default arguments, following
    CPython's decoder: [scan_once], the object and array loops taking the
    scanner as a callback, [scanstring] in strict mode, the number
    matcher, and [JSONDecoder.decode] around them.  Error messages and
    positions are those of the decoder.  Two interpreter limits are left
    out: float literals are kept unrounded, and the digit limit of [int]
    is not applied. *)
Module Json.

(** A position in the document: the index, and the text from there on. *)
Definition cursor := (nat * pystr)%type.

Inductive scan (A : Type) : Type :=
| Found (a : A) (next : cursor)
| StopIteration (idx : nat)
| DecodeError (msg : pystr) (pos : nat)
| TooDeep (what : pystr).
Arguments Found {A} a next.
Arguments StopIteration {A} idx.
Arguments DecodeError {A} msg pos.
Arguments TooDeep {A} what.

Definition is_ws (c : codepoint) : bool :=
  ((c =? 32) || (c =? 9) || (c =? 10) || (c =? 13))%N.

Fixpoint skip_ws (i : nat) (r : pystr) : cursor :=
  match r with
  | c :: t => if is_ws c then skip_ws (S i) t else (i, r)
  | [] => (i, r)
  end.

Definition isdigit (c : codepoint) : bool := ((48 <=? c) && (c <=? 57))%N.

Fixpoint span_digits (r : pystr) : pystr * pystr :=
  match r with
  | c :: t =>
      if isdigit c then let (ds, r') := span_digits t in (c :: ds, r')
      else ([], r)
  | [] => ([], r)
  end.

Definition int_of_digits (ds : pystr) : Z :=
  fold_left (fun acc c => (10 * acc + (Z.of_N c - 48))%Z) ds 0%Z.

(** [int(text)] for a JSON integer literal. *)
Definition parse_int (text : pystr) : Z :=
  match text with
  | c :: ds => if (c =? 45)%N then (- int_of_digits ds)%Z else int_of_digits text
  | [] => 0%Z
  end.

(** The number matcher, anchored at the cursor: an optional minus sign;
    a single zero, or a non-zero digit and more digits; optionally a dot
    and at least one digit; optionally [e] or [E], an optional sign and
    at least one digit.  Returns the value and the matched length. *)
Definition match_number (r : pystr) : option (pyval * nat) :=
  let (sign, r1) :=
    match r with
    | c :: t => if (c =? 45)%N then ([c], t) else ([], r)
    | [] => ([], r)
    end in
  let integer :=
    match r1 with
    | d :: t =>
        if (d =? 48)%N then Some (sign ++ [d], t)
        else if isdigit d then
          let (ds, r2) := span_digits t in Some (sign ++ d :: ds, r2)
        else None
    | [] => None
    end in
  match integer with
  | None => None
  | Some (intpart, r2) =>
      let (frac, r3) :=
        match r2 with
        | c :: t =>
            if (c =? 46)%N then
              match span_digits t with
              | ([], _) => ([], r2)
              | (ds, r') => (c :: ds, r')
              end
            else ([], r2)
        | [] => ([], r2)
        end in
      let (exp, _) :=
        match r3 with
        | e :: t =>
            if ((e =? 101) || (e =? 69))%N then
              let (sg, t') :=
                match t with
                | g :: u => if ((g =? 45) || (g =? 43))%N then ([g], u) else ([], t)
                | [] => ([], t)
                end in
              match span_digits t' with
              | ([], _) => ([], r3)
              | (ds, r') => (e :: sg ++ ds, r')
              end
            else ([], r3)
        | [] => ([], r3)
        end in
      let n := length intpart + length frac + length exp in
      match frac, exp with
      | [], [] => Some (PInt (parse_int intpart), n)
      | _, _ => Some (PFloat (FloatLit intpart frac exp), n)
      end
  end.

Definition hexval (c : codepoint) : option N :=
  if isdigit c then Some (c - 48)%N
  else if ((97 <=? c) && (c <=? 102))%N then Some (c - 87)%N
  else if ((65 <=? c) && (c <=? 70))%N then Some (c - 55)%N
  else None.

Definition hex4 (a b c d : codepoint) : option N :=
  match hexval a, hexval b, hexval c, hexval d with
  | Some x, Some y, Some z, Some w => Some (((x * 16 + y) * 16 + z) * 16 + w)%N
  | _, _, _, _ => None
  end.

(** The single-character escapes after a backslash. *)
Definition unescape (c : codepoint) : option codepoint :=
  if ((c =? 34) || (c =? 92) || (c =? 47))%N then Some c
  else if (c =? 98)%N then Some 8%N
  else if (c =? 102)%N then Some 12%N
  else if (c =? 110)%N then Some 10%N
  else if (c =? 114)%N then Some 13%N
  else if (c =? 116)%N then Some 9%N
  else None.

Definition unterminated : pystr := py "Unterminated string starting at".
Definition invalid_uXXXX : pystr := py "Invalid \uXXXX escape".

(** [scanstring(s, end, strict=True)]: [i] is the index of the next
    character [r] starts with, [begin] the index of the opening quote,
    [acc] the decoded characters so far, last first. *)
Fixpoint scanstring (begin : nat) (acc : pystr) (i : nat) (r : pystr)
  : scan pystr :=
  match r with
  | [] => DecodeError unterminated begin
  | c :: t =>
      if (c =? 34)%N then Found (rev acc) (S i, t)
      else if (c =? 92)%N then
        match t with
        | [] => DecodeError unterminated begin
        | e :: t1 =>
            if (e =? 117)%N then
              match t1 with
              | h1 :: h2 :: h3 :: h4 :: ((_ :: _) as t2) =>
                  match hex4 h1 h2 h3 h4 with
                  | None => DecodeError invalid_uXXXX (i + 1)
                  | Some u =>
                      let single := scanstring begin (u :: acc) (i + 6) t2 in
                      if ((55296 <=? u) && (u <=? 56319))%N then
                        match t2 with
                        | b :: v :: g1 :: g2 :: g3 :: g4 :: ((_ :: _) as t3) =>
                            if ((b =? 92) && (v =? 117))%N then
                              match hex4 g1 g2 g3 g4 with
                              | None => DecodeError invalid_uXXXX (i + 7)
                              | Some u2 =>
                                  if ((56320 <=? u2) && (u2 <=? 57343))%N then
                                    let joined :=
                                      (65536 + ((u - 55296) * 1024 + (u2 - 56320)))%N in
                                    scanstring begin (joined :: acc) (i + 12) t3
                                  else single
                              end
                            else single
                        | _ => single
                        end
                      else single
                  end
              | _ => DecodeError invalid_uXXXX (i + 1)
              end
            else
              match unescape e with
              | Some ch => scanstring begin (ch :: acc) (i + 2) t1
              | None => DecodeError (py "Invalid \escape") i
              end
        end
      else if (c <=? 31)%N then DecodeError (py "Invalid control character at") i
      else scanstring begin (c :: acc) (S i) t
  end.

(** [dict[k] = v] on the item list. *)
Fixpoint dict_set (d : list (pystr * pyval)) (k : pystr) (v : pyval)
  : list (pystr * pyval) :=
  match d with
  | [] => [(k, v)]
  | (k', v') :: t =>
      if Str.eqb k k' then (k', v) :: t else (k', v') :: dict_set t k v
  end.

Definition expecting_comma : pystr := py "Expecting ',' delimiter".

Section Containers.
(** The scanner the container parsers call back for every element. *)
Variable scan_once : cursor -> scan pyval.

(** The array loop; the cursor is at the first character of an
    element.  [fuel] bounds the number of turns. *)
Fixpoint array_items (fuel : nat) (values : list pyval) (cur : cursor)
  : scan pyval :=
  match fuel with
  | O => TooDeep (py "array")
  | S fuel' =>
      match scan_once cur with
      | Found v (i, r) =>
          let values := values ++ [v] in
          match skip_ws i r with
          | (j, c :: t) =>
              if (c =? 93)%N then Found (PList values) (S j, t)
              else if (c =? 44)%N then
                let (k, r') := skip_ws (S j) t in
                array_items fuel' values (k, r')
              else DecodeError expecting_comma j
          | (j, []) => DecodeError expecting_comma j
          end
      | StopIteration idx => StopIteration idx
      | DecodeError msg pos => DecodeError msg pos
      | TooDeep w => TooDeep w
      end
  end.

(** The cursor is just after the opening bracket. *)
Definition parse_array (cur : cursor) : scan pyval :=
  let (i, r) := cur in
  match skip_ws i r with
  | (j, c :: t) =>
      if (c =? 93)%N then Found (PList []) (S j, t)
      else array_items (S (length r)) [] (j, c :: t)
  | (j, []) => array_items (S (length r)) [] (j, [])
  end.

Definition expecting_name : pystr :=
  py "Expecting property name enclosed in double quotes".

(** The object loop; the cursor is where a key must start. *)
Fixpoint object_items (fuel : nat) (pairs : list (pystr * pyval))
  (cur : cursor) : scan pyval :=
  match fuel with
  | O => TooDeep (py "object")
  | S fuel' =>
      match cur with
      | (i, c :: t) =>
          if negb (c =? 34)%N then DecodeError expecting_name i
          else
            match scanstring i [] (S i) t with
            | Found key (i1, r1) =>
                match skip_ws i1 r1 with
                | (i2, c2 :: t2) =>
                    if negb (c2 =? 58)%N
                    then DecodeError (py "Expecting ':' delimiter") i2
                    else
                      let (i3, r3) := skip_ws (S i2) t2 in
                      match scan_once (i3, r3) with
                      | Found v (i4, r4) =>
                          let pairs := dict_set pairs key v in
                          match skip_ws i4 r4 with
                          | (i5, c5 :: t5) =>
                              if (c5 =? 125)%N then Found (PDict pairs) (S i5, t5)
                              else if (c5 =? 44)%N then
                                let (i6, r6) := skip_ws (S i5) t5 in
                                object_items fuel' pairs (i6, r6)
                              else DecodeError expecting_comma i5
                          | (i5, []) => DecodeError expecting_comma i5
                          end
                      | StopIteration idx => StopIteration idx
                      | DecodeError msg pos => DecodeError msg pos
                      | TooDeep w => TooDeep w
                      end
                | (i2, []) => DecodeError (py "Expecting ':' delimiter") i2
                end
            | StopIteration idx => StopIteration idx
            | DecodeError msg pos => DecodeError msg pos
            | TooDeep w => TooDeep w
            end
      | (i, []) => DecodeError expecting_name i
      end
  end.

(** The cursor is just after the opening brace. *)
Definition parse_object (cur : cursor) : scan pyval :=
  let (i, r) := cur in
  match skip_ws i r with
  | (j, c :: t) =>
      if (c =? 125)%N then Found (PDict []) (S j, t)
      else object_items (S (length r)) [] (j, c :: t)
  | (j, []) => object_items (S (length r)) [] (j, [])
  end.
End Containers.

Definition advance (n : nat) (cur : cursor) : cursor :=
  (fst cur + n, skipn n (snd cur)).

(** [scan_once(string, idx)].  [depth] is the number of nested
    containers the interpreter's recursion limit still allows. *)
Fixpoint scan_once (depth : nat) (cur : cursor) : scan pyval :=
  let (i, r) := cur in
  match r with
  | [] => StopIteration i
  | c :: t =>
      if (c =? 34)%N then
        match scanstring i [] (S i) t with
        | Found s next => Found (PStr s) next
        | StopIteration idx => StopIteration idx
        | DecodeError msg pos => DecodeError msg pos
        | TooDeep w => TooDeep w
        end
      else if (c =? 123)%N then
        match depth with
        | O => TooDeep (py "object")
        | S d => parse_object (scan_once d) (S i, t)
        end
      else if (c =? 91)%N then
        match depth with
        | O => TooDeep (py "array")
        | S d => parse_array (scan_once d) (S i, t)
        end
      else if startswith r (py "null") then Found PNone (advance 4 cur)
      else if startswith r (py "true") then Found (PBool true) (advance 4 cur)
      else if startswith r (py "false") then Found (PBool false) (advance 5 cur)
      else if startswith r (py "NaN") then Found (PFloat FloatNaN) (advance 3 cur)
      else if startswith r (py "Infinity") then Found (PFloat FloatInf) (advance 8 cur)
      else if startswith r (py "-Infinity")
      then Found (PFloat FloatNegInf) (advance 9 cur)
      else
        match match_number r with
        | Some (v, n) => Found v (advance n cur)
        | None => StopIteration i
        end
  end.

(** [json.loads(s)] for a [str] argument. *)
Definition loads (depth : nat) (s : pystr) : result pyval :=
  if startswith s [65279%N] then
    Raised (JSONDecodeError
              (py "Unexpected UTF-8 BOM (decode using utf-8-sig)") s 0)
  else
    let (i, r) := skip_ws 0 s in
    match scan_once depth (i, r) with
    | Found v (e, r') =>
        match skip_ws e r' with
        | (_, []) => Ok v
        | (e', _ :: _) => Raised (JSONDecodeError (py "Extra data") s e')
        end
    | StopIteration idx => Raised (JSONDecodeError (py "Expecting value") s idx)
    | DecodeError msg pos => Raised (JSONDecodeError msg s pos)
    | TooDeep w =>
        Raised (RecursionError
                  (py "maximum recursion depth exceeded while decoding a JSON "
                      ++ w ++ py " from a unicode string"))
    end.

End Json.

(* ================================================================== *)
(** * Truth values and attribute lookup of Python values *)
(* ================================================================== *)

(** The exponent of a float literal: empty, or [e] or [E], an optional
    sign, and digits. *)
Definition exp_value (exp : pystr) : Z :=
  match exp with
  | [] => 0%Z
  | _ :: t =>
      match t with
      | c :: ds =>
          if (c =? 45)%N then (- Json.int_of_digits ds)%Z
          else if (c =? 43)%N then Json.int_of_digits ds
          else Json.int_of_digits t
      | [] => 0%Z
      end
  end.

(** [float(literal) == 0.0].  The literal stands for [mant * 10 ^ e10];
    rounded to the nearest double it is zero when it is zero or at most
    half the smallest subnormal, [2 ^ -1075]. *)
Definition float_is_zero (f : pyfloat) : bool :=
  match f with
  | FloatLit intpart frac exp =>
      let mant := Json.int_of_digits (filter Json.isdigit (intpart ++ frac)) in
      let e10 := (exp_value exp - Z.of_nat (length (filter Json.isdigit frac)))%Z in
      ((mant =? 0) || ((e10 <? 0) && (mant * 2 ^ 1075 <=? 10 ^ (- e10))))%Z
  | FloatNaN | FloatInf | FloatNegInf => false
  end.

(** [bool(v)], as [or] and [not] use it. *)
Definition truthy (v : pyval) : bool :=
  match v with
  | PNone => false
  | PBool b => b
  | PInt z => negb (z =? 0)%Z
  | PFloat f => negb (float_is_zero f)
  | PStr s => match s with [] => false | _ :: _ => true end
  | PList items => match items with [] => false | _ :: _ => true end
  | PDict items => match items with [] => false | _ :: _ => true end
  end.

(** [type(v).__name__] *)
Definition type_name (v : pyval) : pystr :=
  match v with
  | PNone => py "NoneType"
  | PBool _ => py "bool"
  | PInt _ => py "int"
  | PFloat _ => py "float"
  | PStr _ => py "str"
  | PList _ => py "list"
  | PDict _ => py "dict"
  end.

(** The exception of [v.attr] when the type of [v] has no such attribute. *)
Definition no_attribute (v : pyval) (attr : pystr) : pyexn :=
  AttributeError
    (py "'" ++ type_name v ++ py "' object has no attribute '" ++ attr ++ py "'").

(** [d.get(key)]: the value stored under [key], or [None]. *)
Fixpoint dict_get (d : list (pystr * pyval)) (key : pystr) : pyval :=
  match d with
  | [] => PNone
  | (k, v) :: rest => if Str.eqb key k then v else dict_get rest key
  end.

(* ================================================================== *)
(** * The process: generation requests sent and widgets drawn *)
(* ================================================================== *)

(** One call of [client.chat.complete(model=..., messages=[UserMessage(...)])]. *)
Record request : Type := Request { model : pystr; content : pystr }.

(** What [st.*] calls draw on the page. *)
Inductive widget : Type :=
| st_warning (body : pystr)
| st_error (body : pystr)
| st_success (body : pystr)
| st_markdown (body : pystr)
| st_write (body : pystr)
| st_code (body : option pystr)
| st_json (body : pyval)
| st_download_button (label : pystr) (data : list N) (file_name mime : pystr).

(** The observable state of a run: the requests sent to the generation
    service, oldest first, and the widgets drawn, oldest first. *)
Record world : Type := World { calls : list request; screen : list widget }.

Definition fresh : world := World [] [].

Definition is_surrogate (c : codepoint) : bool :=
  ((55296 <=? c) && (c <=? 57343))%N.

(** The strings a Streamlit call puts on the page.  [st.json] serialises
    a value that is not a string with [json.dumps], which escapes every
    character outside ASCII. *)
Definition widget_strings (x : widget) : list pystr :=
  match x with
  | st_warning body | st_error body | st_success body
  | st_markdown body | st_write body => [body]
  | st_code (Some body) => [body]
  | st_code None => []
  | st_json (PStr body) => [body]
  | st_json _ => []
  | st_download_button label _ file_name mime => [label; file_name; mime]
  end.

(** A text that UTF-8 can encode: no surrogate code point in it. *)
Definition encodable (s : pystr) : bool := negb (existsb is_surrogate s).

(** A call all of whose strings can be encoded, and that serialises no
    nested value ([json.dumps] has a recursion limit of its own). *)
Definition plain (x : widget) : bool :=
  match x with
  | st_json (PList _) | st_json (PDict _) => false
  | _ => forallb encodable (widget_strings x)
  end.

(** What does not belong to the repository: the generation service (its
    answer may depend on the requests already sent), [str.lower],
    [json.loads], the order in which a [set] built from the given
    elements is iterated, and Streamlit.  A set yields each of its
    elements once, in the order of its hash table; nothing else is known
    of that order.  A Streamlit call returns or raises ([st_call]); it
    returns when it is [plain]; on a string with a lone surrogate
    Streamlit raises [UnicodeEncodeError]. *)
Class Runtime : Type := {
  chat_complete : list request -> request -> result pystr;
  str_lower : pystr -> pystr;
  json_loads : pystr -> result pyval;
  set_iter : list pystr -> list pystr;
  set_iter_perm : forall l, NoDup l -> Permutation (set_iter l) l;
  st_call : widget -> result unit;
  st_call_plain : forall x, plain x = true -> st_call x = Ok tt
}.

(** Computations that send requests, draw widgets and may raise. *)
Definition M (A : Type) : Type := world -> result A * world.

Definition ret {A} (a : A) : M A := fun w => (Ok a, w).

Definition bind {A B} (m : M A) (k : A -> M B) : M B :=
  fun w =>
    match m w with
    | (Ok a, w') => k a w'
    | (Raised e, w') => (Raised e, w')
    end.

Notation "x <- m ;; k" := (bind m (fun x => k))
  (at level 61, m at next level, right associativity).
Notation "m ;;; k" := (bind m (fun _ => k))
  (at level 61, right associativity).

(** [try: body except Exception as e: handler(e)] *)
Definition try_except {A} (body : M A) (handler : pyexn -> M A) : M A :=
  fun w =>
    match body w with
    | (Ok a, w') => (Ok a, w')
    | (Raised e, w') => handler e w'
    end.

(** A computation with no effect on the world. *)
Definition lift {A} (r : result A) : M A := fun w => (r, w).

(** A Streamlit call: when it returns, the widget is on the page; when
    it raises, the page is as it was. *)
Definition draw {rt : Runtime} (x : widget) : M unit :=
  fun w =>
    match st_call x with
    | Ok _ => (Ok tt, World (calls w) (screen w ++ [x]))
    | Raised e => (Raised e, w)
    end.

(** [sep.join(parts)] *)
Fixpoint join (sep : pystr) (parts : list pystr) : pystr :=
  match parts with
  | [] => []
  | [p] => p
  | p :: rest => p ++ sep ++ join sep rest
  end.

(** The UTF-8 bytes of the text from index [i] on, [s] being the text
    from there; a surrogate raises [UnicodeEncodeError] for the run of
    surrogates it starts. *)
Fixpoint encode_utf8_from (object : pystr) (i : nat) (s : pystr)
  : result (list N) :=
  match s with
  | [] => Ok []
  | c :: t =>
      if is_surrogate c then
        Raised (UnicodeEncodeError object i
                  (i + length (takewhile is_surrogate s)))
      else
        match encode_utf8_from object (S i) t with
        | Raised e => Raised e
        | Ok bs =>
            Ok (if (c <? 128)%N then c :: bs
                else if (c <? 2048)%N then
                  (192 + c / 64) :: (128 + c mod 64) :: bs
                else if (c <? 65536)%N then
                  (224 + c / 4096) :: (128 + (c / 64) mod 64)
                    :: (128 + c mod 64) :: bs
                else
                  (240 + c / 262144) :: (128 + (c / 4096) mod 64)
                    :: (128 + (c / 64) mod 64) :: (128 + c mod 64) :: bs)%N
        end
  end.

(** [s.encode("utf-8")] *)
Definition encode_utf8 (s : pystr) : result (list N) := encode_utf8_from s 0 s.

(** The elements of the [allowed] set literal, as both files write it. *)
Definition allowed : list pystr :=
  [ py "card arrival";
    py "change pin";
    py "exchange rate";
    py "country support";
    py "cancel transfer";
    py "charge dispute";
    py "customer service" ].

(** The loop [for a in allowed: if a in out: return a] followed by
    [return "customer service"], identical in both files; [iteration] is
    the order in which the set yields its elements. *)
Fixpoint first_allowed_in (iteration : list pystr) (out : pystr) : pystr :=
  match iteration with
  | [] => py "customer service"
  | a :: rest => if contains a out then a else first_allowed_in rest out
  end.

(* ================================================================== *)
(** * llms.py *)
(* ================================================================== *)

Module Llms.
Section WithRuntime.
Context {rt : Runtime}.

(** [mistral_call(user_message)], with the default model. *)
Definition mistral_call (user_message : pystr) : M pystr :=
  fun w =>
    let rq := Request (py "mistral-large-latest") user_message in
    (chat_complete (calls w) rq, World (calls w ++ [rq]) (screen w)).

Definition fence : pystr := py "```".
Definition fence_json : pystr := py "```json".

(** The text [safe_json_parse] hands to [json.loads]. *)
Definition cleaned (text : pystr) : pystr :=
  let cleaned := strip text in
  if startswith cleaned fence
  then strip (replace (replace cleaned fence_json []) fence [])
  else cleaned.

(** Returns [(data, error_message)]; [None] in the second component is
    Python's [None].  The [try] around [json.loads] catches every
    [Exception]. *)
Definition safe_json_parse (text : pystr) : result (pyval * option pystr) :=
  match json_loads (cleaned text) with
  | Ok data => Ok (data, None)
  | Raised e => Ok (PNone, Some (str_exn e))
  end.

(** [CLASSIFY_PROMPT.format(inquiry=inquiry)] *)
Definition CLASSIFY_PROMPT (inquiry : pystr) : pystr :=
  join [nl]
    [ [];
      py "You are a bank customer service bot.";
      py "Your task is to assess customer intent and categorize customer";
      py "inquiry after <<<>>> into one of the following predefined categories:";
      py "card arrival";
      py "change pin";
      py "exchange rate";
      py "country support";
      py "cancel transfer";
      py "charge dispute";
      py "If the text doesn't fit into any of the above categories,";
      py "classify it as:";
      py "customer service";
      py "You will only respond with the predefined category.";
      py "Do not provide explanations or notes.";
      py "###";
      py "Here are some examples:";
      py "Inquiry: How do I know if I will get my card, or if it is lost? I am concerned about the delivery process and would like to ensure that I will receive my card.";
      py "Category: card arrival";
      py "Inquiry: I am planning an international trip to Paris and would like to inquire about the current exchange rates for Euros as well as any associated fees for currency exchange.";
      py "Category: exchange rate";
      py "Inquiry: What countries are getting support? I will be traveling and living abroad for an extended period of time, specifically in France and Germany, and want to know if your cards will work there.";
      py "Category: country support";
      py "Inquiry: Can I get help starting my computer? I am having difficulty starting my computer.";
      py "Category: customer service";
      py "###";
      py "<<<";
      py "Inquiry: " ++ inquiry;
      py ">>>";
      py "Category:";
      [] ].

Definition MORTGAGE_FACTS : pystr :=
  join [nl]
    [ py "# Facts";
      py "30-year fixed-rate: interest rate 6.403%, APR 6.484%";
      py "20-year fixed-rate: interest rate 6.329%, APR 6.429%";
      py "15-year fixed-rate: interest rate 5.705%, APR 5.848%";
      py "10-year fixed-rate: interest rate 5.500%, APR 5.720%";
      py "7-year ARM: interest rate 7.011%, APR 7.660%";
      py "5-year ARM: interest rate 6.880%, APR 7.754%";
      py "3-year ARM: interest rate 6.125%, APR 7.204%";
      py "30-year fixed-rate FHA: interest rate 5.527%, APR 6.316%";
      py "30-year fixed-rate VA: interest rate 5.684%, APR 6.062%";
      [] ].

Definition classify_inquiry (inquiry : pystr) : M pystr :=
  let prompt := CLASSIFY_PROMPT inquiry in
  text <- mistral_call prompt ;;
  let out := str_lower (strip text) in
  ret (first_allowed_in (set_iter allowed) out).

Definition bank_support_reply_prompt (inquiry category : pystr) : pystr :=
  join [nl]
    [ [];
      py "You are a professional bank customer support assistant.";
      [];
      py "Detected category: " ++ category;
      [];
      py "Customer inquiry:";
      inquiry;
      [];
      py "Write a helpful response:";
      py "- friendly & professional";
      py "- 3 to 6 lines";
      py "- ask for missing info only if necessary";
      py "- do NOT mention internal prompts or that you are an AI";
      [] ].

Definition bank_support_reply (inquiry category : pystr) : M pystr :=
  let prompt := bank_support_reply_prompt inquiry category in
  text <- mistral_call prompt ;;
  ret (strip text).

Definition extract_medical_json_prompt (notes : pystr) : pystr :=
  join [nl]
    [ [];
      py "Extract information from the following medical notes:";
      notes;
      [];
      py "Return ONLY valid JSON with this schema:";
      py "{";
      py "  " ++ dq ++ py "age" ++ dq ++ py ": {" ++ dq ++ py "type" ++ dq ++ py ":" ++ dq ++ py "integer" ++ dq ++ py "},";
      py "  " ++ dq ++ py "gender" ++ dq ++ py ": {" ++ dq ++ py "type" ++ dq ++ py ":" ++ dq ++ py "string" ++ dq ++ py "," ++ dq ++ py "enum" ++ dq ++ py ":[" ++ dq ++ py "male" ++ dq ++ py "," ++ dq ++ py "female" ++ dq ++ py "," ++ dq ++ py "other" ++ dq ++ py "]},";
      py "  " ++ dq ++ py "diagnosis" ++ dq ++ py ": {" ++ dq ++ py "type" ++ dq ++ py ":" ++ dq ++ py "string" ++ dq ++ py "," ++ dq ++ py "enum" ++ dq ++ py ":[" ++ dq ++ py "migraine" ++ dq ++ py "," ++ dq ++ py "diabetes" ++ dq ++ py "," ++ dq ++ py "arthritis" ++ dq ++ py "," ++ dq ++ py "acne" ++ dq ++ py "]},";
      py "  " ++ dq ++ py "weight" ++ dq ++ py ": {" ++ dq ++ py "type" ++ dq ++ py ":" ++ dq ++ py "integer" ++ dq ++ py "},";
      py "  " ++ dq ++ py "smoking" ++ dq ++ py ": {" ++ dq ++ py "type" ++ dq ++ py ":" ++ dq ++ py "string" ++ dq ++ py "," ++ dq ++ py "enum" ++ dq ++ py ":[" ++ dq ++ py "yes" ++ dq ++ py "," ++ dq ++ py "no" ++ dq ++ py "]}";
      py "}";
      [] ].

Definition extract_medical_json (notes : pystr)
  : M (pystr * pyval * option pystr) :=
  let prompt := extract_medical_json_prompt notes in
  text <- mistral_call prompt ;;
  let raw := strip text in
  r <- lift (safe_json_parse raw) ;;
  let (data, err) := r in
  ret (raw, data, err).

Definition generate_mortgage_email_prompt (email_text : pystr) : pystr :=
  join [nl]
    [ [];
      py "You are a mortgage lender customer service bot, and your task is to";
      py "create personalized email responses to address customer questions.";
      py "Answer the customer's inquiry using the provided facts below. Ensure";
      py "that your response is clear, concise, and directly addresses the";
      py "customer's question. Address the customer in a friendly and";
      py "professional manner. Sign the email with " ++ dq ++ py "Lender Customer Support." ++ dq;
      [];
      MORTGAGE_FACTS;
      [];
      py "# Email";
      email_text;
      [] ].

Definition generate_mortgage_email (email_text : pystr) : M pystr :=
  let prompt := generate_mortgage_email_prompt email_text in
  text <- mistral_call prompt ;;
  ret (strip text).

Definition summarize_newsletter_prompt (newsletter : pystr) : pystr :=
  join [nl]
    [ [];
      py "You are a commentator. Your task is to write a report on a newsletter.";
      py "When presented with the newsletter, come up with interesting questions to ask,";
      py "and answer each question.";
      py "Afterward, combine all the information and write a report in the markdown";
      py "format.";
      [];
      py "# Newsletter:";
      newsletter;
      [];
      py "# Instructions:";
      py "## Summarize:";
      py "In clear and concise language, summarize the key points and themes";
      py "presented in the newsletter.";
      py "## Interesting Questions:";
      py "Generate three distinct and thought-provoking questions that can be";
      py "asked about the content of the newsletter. For each question:";
      py "- After " ++ dq ++ py "Q: " ++ dq ++ py ", describe the problem";
      py "- After " ++ dq ++ py "A: " ++ dq ++ py ", provide a detailed explanation of the problem addressed";
      py "in the question.";
      py "- Enclose the ultimate answer in <>.";
      py "## Write an analysis report";
      py "Using the summary and the answers to the interesting questions,";
      py "create a comprehensive report in Markdown format.";
      [] ].

Definition summarize_newsletter (newsletter : pystr) : M pystr :=
  let prompt := summarize_newsletter_prompt newsletter in
  text <- mistral_call prompt ;;
  ret (strip text).

(** ** The five tabs: what a click on each button does *)

(** [with st.spinner(...)] shows a fixed message while the requests
    run and leaves nothing on the page: it is not recorded. *)

(** The except block of every tab:
    [st.error("Error calling Mistral."); st.code(str(e))]. *)
Definition mistral_error_with_detail (e : pyexn) : M unit :=
  draw (st_error (py "Error calling Mistral.")) ;;;
  draw (st_code (Some (str_exn e))).

(** Tab 1, button "Send (Chatbot)". *)
Definition send_chatbot (user_msg : pystr) (show_debug : bool) : M unit :=
  match strip user_msg with
  | [] => draw (st_warning (py "Please type a message."))
  | _ :: _ =>
      try_except
        (cat <- classify_inquiry user_msg ;;
         reply <- bank_support_reply user_msg cat ;;
         draw (st_success (py "Done!")) ;;;
         draw (st_markdown (py "### Detected category")) ;;;
         draw (st_write cat) ;;;
         draw (st_markdown (py "### Reply")) ;;;
         draw (st_write reply) ;;;
         if show_debug then
           draw (st_markdown (py "### Debug")) ;;;
           draw (st_code (Some (CLASSIFY_PROMPT (py "{inquiry}"))))
         else ret tt)
        mistral_error_with_detail
  end.

(** Tab 2, button "Classify". *)
Definition classify_button (inquiry : pystr) : M unit :=
  match strip inquiry with
  | [] => draw (st_warning (py "Please enter an inquiry."))
  | _ :: _ =>
      try_except
        (cat <- classify_inquiry inquiry ;;
         draw (st_markdown (py "### Category")) ;;;
         draw (st_write cat))
        mistral_error_with_detail
  end.

(** Tab 3, button "Extract JSON". *)
Definition extract_json_button (notes : pystr) : M unit :=
  match strip notes with
  | [] => draw (st_warning (py "Please enter notes."))
  | _ :: _ =>
      try_except
        (r <- extract_medical_json notes ;;
         let '(raw, data, err) := r in
         draw (st_markdown (py "### Model output (raw)")) ;;;
         draw (st_code (Some raw)) ;;;
         if is_not_None data then
           draw (st_markdown (py "### Parsed JSON")) ;;;
           draw (st_json data)
         else
           draw (st_warning
                   (py "Could not parse JSON. The model output may not be valid JSON.")) ;;;
           draw (st_code err))
        mistral_error_with_detail
  end.

(** Tab 4, button "Generate Email Reply". *)
Definition generate_email_button (email_text : pystr) : M unit :=
  match strip email_text with
  | [] => draw (st_warning (py "Please enter an email."))
  | _ :: _ =>
      try_except
        (reply <- generate_mortgage_email email_text ;;
         draw (st_markdown (py "### Email reply")) ;;;
         draw (st_write reply))
        mistral_error_with_detail
  end.

(** Tab 5, button "Summarize + Q&A Report". *)
Definition summarize_button (newsletter : pystr) : M unit :=
  match strip newsletter with
  | [] => draw (st_warning (py "Please enter text."))
  | _ :: _ =>
      try_except
        (report_md <- summarize_newsletter newsletter ;;
         draw (st_markdown (py "### Output report (Markdown)")) ;;;
         draw (st_markdown report_md) ;;;
         data <- lift (encode_utf8 report_md) ;;
         draw (st_download_button (py "Download report as .md") data
                 (py "summary_report.md") (py "text/markdown")))
        mistral_error_with_detail
  end.

End WithRuntime.
End Llms.

(* ================================================================== *)
(** * api.py *)
(* ================================================================== *)

Module Api.
Section WithRuntime.
Context {rt : Runtime}.

Definition mistral_call (user_message : pystr) : M pystr :=
  fun w =>
    let rq := Request (py "mistral-large-latest") user_message in
    (chat_complete (calls w) rq, World (calls w ++ [rq]) (screen w)).

(** [CLASSIFY_PROMPT.format(inquiry=inquiry)] *)
Definition CLASSIFY_PROMPT (inquiry : pystr) : pystr :=
  join [nl]
    [ [];
      py "You are a bank customer service bot.";
      py "Classify the inquiry into ONE of:";
      py "card arrival";
      py "change pin";
      py "exchange rate";
      py "country support";
      py "cancel transfer";
      py "charge dispute";
      py "customer service";
      [];
      py "Only return the category name.";
      [];
      py "Inquiry: " ++ inquiry;
      py "Category:";
      [] ].

Definition classify_inquiry (inquiry : pystr) : M pystr :=
  text <- mistral_call (CLASSIFY_PROMPT inquiry) ;;
  let out := str_lower (strip text) in
  ret (first_allowed_in (set_iter allowed) out).

Definition generate_support_reply_prompt (inquiry category : pystr) : pystr :=
  join [nl]
    [ [];
      py "You are a professional bank customer support assistant.";
      [];
      py "Detected category: " ++ category;
      [];
      py "Customer inquiry:";
      inquiry;
      [];
      py "Write a helpful response in 3 to 6 lines.";
      [] ].

Definition generate_support_reply (inquiry category : pystr) : M pystr :=
  let prompt := generate_support_reply_prompt inquiry category in
  text <- mistral_call prompt ;;
  ret (strip text).

(** A [jsonify(...)] response with its status code. *)
Record response : Type :=
  Response { status : nat; body : list (pystr * pyval) }.

(** [POST /chat].  [body] is what [request.get_json(silent=True)]
    returns: the decoded JSON body, or [None] when the request has none.
    An exception that leaves the handler becomes a 500 response. *)
Definition chat (body : pyval) : M response :=
  let data := if truthy body then body else PDict [] in
  match data with
  | PDict d =>
      let field := dict_get d (py "message") in
      match (if truthy field then field else PStr []) with
      | PStr text =>
          let message := strip text in
          match message with
          | [] =>
              ret (Response 400 [(py "error", PStr (py "message is required"))])
          | _ :: _ =>
              category <- classify_inquiry message ;;
              reply <- generate_support_reply message category ;;
              ret (Response 200
                     [ (py "message", PStr message);
                       (py "category", PStr category);
                       (py "reply", PStr reply) ])
          end
      | other => lift (Raised (no_attribute other (py "strip")))
      end
  | other => lift (Raised (no_attribute other (py "get")))
  end.

End WithRuntime.
End Api.

(* ================================================================== *)
(** * Reference runtimes *)
(* ================================================================== *)

Definition declared_order (l : list pystr) : list pystr := l.
Definition reversed_order (l : list pystr) : list pystr := rev l.

Definition declared_order_perm
  : forall l, NoDup l -> Permutation (declared_order l) l :=
  fun l _ => Permutation_refl l.

Definition reversed_order_perm
  : forall l, NoDup l -> Permutation (reversed_order l) l :=
  fun l _ => Permutation_sym (Permutation_rev l).

(** Encoding each string in turn: the first that cannot be encoded
    raises. *)
Fixpoint encode_all (strings : list pystr) : result unit :=
  match strings with
  | [] => Ok tt
  | s :: rest =>
      match encode_utf8 s with
      | Ok _ => encode_all rest
      | Raised e => Raised e
      end
  end.

(** Streamlit as the reference runtimes have it: a call returns when all
    its strings can be encoded, and raises the [UnicodeEncodeError] of the
    first string that cannot be. *)
Definition st_reference (x : widget) : result unit :=
  if plain x then Ok tt else encode_all (widget_strings x).

Definition st_reference_plain
  : forall x, plain x = true -> st_reference x = Ok tt :=
  fun x H =>
    @eq_ind_r bool true
      (fun b => (if b then Ok tt else encode_all (widget_strings x)) = Ok tt)
      eq_refl (plain x) H.

(** A runtime for text whose cased characters are ASCII, with the
    reference JSON decoder; [service] plays the generation service. *)
Definition runtime_declared
  (service : list request -> request -> result pystr) : Runtime :=
  {| chat_complete := service;
     str_lower := ascii_lower;
     json_loads := Json.loads 1000;
     set_iter := declared_order;
     set_iter_perm := declared_order_perm;
     st_call := st_reference;
     st_call_plain := st_reference_plain |}.

(** The same, with a set that yields its elements last first. *)
Definition runtime_reversed
  (service : list request -> request -> result pystr) : Runtime :=
  {| chat_complete := service;
     str_lower := ascii_lower;
     json_loads := Json.loads 1000;
     set_iter := reversed_order;
     set_iter_perm := reversed_order_perm;
     st_call := st_reference;
     st_call_plain := st_reference_plain |}.

(** A generation service that answers every request with the same text. *)
Definition always (text : pystr) : list request -> request -> result pystr :=
  fun _ _ => Ok text.

(** A generation service that is down. *)
Definition unavailable : list request -> request -> result pystr :=
  fun _ _ => Raised (Exception (py "service unavailable")).

(* ================================================================== *)
(** * Vocabulary of the properties *)
(* ================================================================== *)

(** No leading and no trailing whitespace. *)
Definition trimmed (s : pystr) : bool :=
  match s with [] => true | c :: _ => negb (isspace c) end
  && match rev s with [] => true | c :: _ => negb (isspace c) end.

(** [a] occurs in [s] as a substring. *)
Definition substring (a s : pystr) : Prop :=
  exists pre post, s = pre ++ a ++ post.

(** The first label, in the order the [allowed] literal declares them,
    that occurs in [out]. *)
Definition first_in_declaration_order (out : pystr) : option pystr :=
  find (fun a => contains a out) allowed.

(** The labels that occur in [out]. *)
Definition labels_in (out : pystr) : list pystr :=
  filter (fun a => contains a out) allowed.

(** A payload between an opening fence with a language tag (possibly
    empty) and a closing fence, each on a line of its own. *)
Definition fenced (tag payload : pystr) : pystr :=
  Llms.fence ++ tag ++ nl :: payload ++ nl :: Llms.fence.

(** The two files that define [classify_inquiry]. *)
Inductive source_file : Type := llms_py | api_py.

Definition classify_inquiry_of {rt : Runtime} (f : source_file)
  : pystr -> M pystr :=
  match f with
  | llms_py => Llms.classify_inquiry
  | api_py => Api.classify_inquiry
  end.

Definition CLASSIFY_PROMPT_of (f : source_file) : pystr -> pystr :=
  match f with
  | llms_py => Llms.CLASSIFY_PROMPT
  | api_py => Api.CLASSIFY_PROMPT
  end.

(** The request [mistral_call(prompt)] sends. *)
Definition request_for (prompt : pystr) : request :=
  Request (py "mistral-large-latest") prompt.

(** In world [w] the generation service answers [prompt] with [text]. *)
Definition answers {rt : Runtime} (w : world) (prompt text : pystr) : Prop :=
  chat_complete (calls w) (request_for prompt) = Ok text.

(** [returns m w a] says that [m], run in [w], returns [a] (and does not
    raise). *)
Definition returns {A} (m : M A) (w : world) (a : A) : Prop :=
  fst (m w) = Ok a.

(** The requests a computation sends when run in [w]. *)
Definition sent {A} (m : M A) (w : world) : list request :=
  skipn (length (calls w)) (calls (snd (m w))).

(** The world after one more request. *)
Definition after (w : world) (prompt : pystr) : world :=
  World (calls w ++ [request_for prompt]) (screen w).

(** An operation that sends one request and post-processes the answer. *)
Definition one_call {rt : Runtime} {A} (m : M A) (prompt : pystr)
  (post : pystr -> A) : Prop :=
  forall w,
    m w = match chat_complete (calls w) (request_for prompt) with
          | Ok text => (Ok (post text), after w prompt)
          | Raised e => (Raised e, after w prompt)
          end.

(** What [safe_json_parse] returns, by the outcome of [json.loads]. *)
Definition parsed {rt : Runtime} (text : pystr) : pyval * option pystr :=
  match json_loads (Llms.cleaned text) with
  | Ok data => (data, None)
  | Raised e => (PNone, Some (str_exn e))
  end.

(** One pass of [replace("```", "")]. *)
Definition unfence (s : pystr) : pystr := replace_from Llms.fence [] 0 s.

(** ** Sample texts *)

(** A noisy, multi-line, differently-cased classification answer. *)
Definition noisy_answer : pystr :=
  nl :: py "  Category:  CARD Arrival (delivery)" ++ [nl; 32%N; 32%N].

(** The payload [{"age": 30}]. *)
Definition age_payload : pystr :=
  py "{" ++ dq ++ py "age" ++ dq ++ py ": 30}".

(** The payload [{"a": "```"}]: valid JSON with a triple backtick inside
    a string value. *)
Definition backtick_payload : pystr :=
  py "{" ++ dq ++ py "a" ++ dq ++ py ": " ++ dq ++ py "```" ++ dq ++ py "}".

(** The payload [{"a": "x```y"}]. *)
Definition inner_backtick_payload : pystr :=
  py "{" ++ dq ++ py "a" ++ dq ++ py ": " ++ dq ++ py "x```y" ++ dq ++ py "}".

(** ** Sample runtimes *)

(** The generation service gives the noisy answer; the set yields its
    elements in declaration order. *)
Definition rt_noisy : Runtime := runtime_declared (always noisy_answer).

(** The generation service names two labels; the set yields its elements
    last first. *)
Definition two_labels : pystr := py "Card Arrival or Change PIN".
Definition rt_two_labels : Runtime := runtime_reversed (always two_labels).

(** The generation service names no label. *)
Definition rt_no_label : Runtime := runtime_declared (always (py "I cannot tell.")).

(** The generation service answers with prose instead of JSON. *)
Definition rt_prose : Runtime := runtime_declared (always (py " oops, {not json ")).

(** The generation service answers "not json at all". *)
Definition rt_not_json : Runtime := runtime_declared (always (py "not json at all")).

(** The generation service answers with the JSON literal [null]. *)
Definition rt_null : Runtime := runtime_declared (always (py "null")).

(** The generation service answers "customer service". *)
Definition rt_plain : Runtime := runtime_declared (always (py "customer service")).

(** The generation service is down. *)
Definition rt_down : Runtime := runtime_declared unavailable.

(** The mock of the end-to-end scenario: the first request is answered
    with a category line, every later one with a reply. *)
Definition scenario_service : list request -> request -> result pystr :=
  fun sent_before _ =>
    match sent_before with
    | [] => Ok (py "Category: card arrival")
    | _ :: _ => Ok (py "We're sorry for the delay...")
    end.

Definition rt_scenario : Runtime := runtime_declared scenario_service.

(** ** More vocabulary *)

(** Empty, or whitespace only: what [not s.strip()] accepts. *)
Definition blank (s : pystr) : bool := forallb isspace s.

(** In world [w] the generation service fails on [prompt] with [e]. *)
Definition fails {rt : Runtime} (w : world) (prompt : pystr) (e : pyexn) : Prop :=
  chat_complete (calls w) (request_for prompt) = Raised e.

(** The world with more widgets drawn. *)
Definition drawn (w : world) (widgets : list widget) : world :=
  World (calls w) (screen w ++ widgets).

(** The category [classify_inquiry] resolves the answer [text] to. *)
Definition category_of {rt : Runtime} (text : pystr) : pystr :=
  first_allowed_in (set_iter allowed) (str_lower (strip text)).

(** The generation service classifies, then fails on every later request. *)
Definition reply_fails_service : list request -> request -> result pystr :=
  fun sent_before _ =>
    match sent_before with
    | [] => Ok (py "card arrival")
    | _ :: _ => Raised (Exception (py "rate limit exceeded"))
    end.

Definition rt_reply_down : Runtime := runtime_declared reply_fails_service.

(** The generation service returns a report that ends in a lone surrogate. *)
Definition surrogate_report : pystr := py "# Report " ++ [55357%N].
Definition rt_surrogate : Runtime := runtime_declared (always surrogate_report).

(** The generation service returns a plain report. *)
Definition rt_report : Runtime := runtime_declared (always (py "# Report")).

(** The generation service answers with a fenced JSON object. *)
Definition rt_fenced_age : Runtime :=
  runtime_declared (always (fenced (py "json") age_payload)).

(** The request body is a JSON object whose [message] is the string [s]. *)
Definition carries (body : pyval) (s : pystr) : Prop :=
  exists d, body = PDict d /\ dict_get d (py "message") = PStr s.

(** The request has no body, or a body that counts as false, or its body
    is a JSON object without a [message] or with one that counts as false
    ([null], [false], zero, an empty string, array or object). *)
Definition lacks_message (body : pyval) : Prop :=
  truthy body = false
  \/ exists d, body = PDict d /\ truthy (dict_get d (py "message")) = false.

(** Streamlit accepts the call, or raises on it. *)
Definition accepted {rt : Runtime} (x : widget) : Prop := st_call x = Ok tt.

Definition refused {rt : Runtime} (x : widget) (e : pyexn) : Prop :=
  st_call x = Raised e.


(** The box every except block of the page draws first. *)
Definition error_box : widget := st_error (py "Error calling Mistral.").

(** [outcome] is what an except block entered in world [w] with the
    exception [e] leaves: the error box and the text of [e] when
    [st.code] accepts that text; when [st.code] raises on it, the error
    box alone, and the exception of [st.code] propagates. *)
Definition error_reported {rt : Runtime}
  (outcome : result unit * world) (w : world) (e : pyexn) : Prop :=
  (accepted (st_code (Some (str_exn e))) ->
   outcome = (Ok tt, drawn w [error_box; st_code (Some (str_exn e))]))
  /\ (forall e', refused (st_code (Some (str_exn e))) e' ->
                 outcome = (Raised e', drawn w [error_box])).


(** The answer 400 of [POST /chat]. *)
Definition message_required : Api.response :=
  Api.Response 400 [(py "error", PStr (py "message is required"))].

(* ================================================================== *)
(** * Facts about the string operations *)
(* ================================================================== *)

Section StringFacts.

Lemma startswith_cons (a c : codepoint) (p s : pystr) :
  startswith (c :: s) (a :: p) = (a =? c)%N && startswith s p.
Proof. reflexivity. Qed.

Lemma startswith_app (p t : pystr) : startswith (p ++ t) p = true.
Proof.
  induction p as [|a p IH]; simpl; [now destruct t|].
  now rewrite N.eqb_refl, IH.
Qed.

Lemma startswith_inv (s p : pystr) :
  startswith s p = true -> exists t, s = p ++ t.
Proof.
  revert s; induction p as [|a p IH]; intros s H.
  - now exists s.
  - destruct s as [|c s]; simpl in H; [discriminate|].
    apply andb_true_iff in H as [Hc Hs].
    apply N.eqb_eq in Hc; subst c.
    destruct (IH _ Hs) as [t ->]. now exists t.
Qed.

Lemma startswith_length (s p : pystr) :
  startswith s p = true -> length p <= length s.
Proof.
  intros H. destruct (startswith_inv _ _ H) as [t ->].
  rewrite length_app. lia.
Qed.

(** [a in s] is substring containment. *)
Lemma contains_spec (a s : pystr) : contains a s = true <-> substring a s.
Proof.
  split.
  - induction s as [|c s IH]; cbn [contains]; intros H.
    + rewrite orb_false_r in H.
      destruct (startswith_inv _ _ H) as [t Ht].
      exists [], t. exact Ht.
    + apply orb_true_iff in H as [H|H].
      * destruct (startswith_inv _ _ H) as [t Ht].
        exists [], t. exact Ht.
      * destruct (IH H) as (pre & post & ->).
        now exists (c :: pre), post.
  - intros (pre & post & ->).
    induction pre as [|c pre IH].
    + cbn [app]. pose proof (startswith_app a post) as E.
      destruct (a ++ post); cbn [contains]; now rewrite E.
    + cbn [app contains]. rewrite IH. apply orb_true_r.
Qed.

Lemma contains_false (a s : pystr) :
  contains a s = false <-> ~ substring a s.
Proof.
  rewrite <- contains_spec. destruct (contains a s); intuition congruence.
Qed.

(** A character that does not occur in the pattern separates the text
    for matching. *)
Lemma startswith_sep (a x y : pystr) (c : codepoint) :
  ~ In c a -> startswith (x ++ c :: y) a = startswith x a.
Proof.
  revert x; induction a as [|a0 a IH]; intros x Hc.
  - now destruct x.
  - destruct x as [|x0 x]; simpl.
    + destruct (N.eqb_spec a0 c) as [->|]; [|reflexivity].
      exfalso; apply Hc; now left.
    + rewrite IH; [reflexivity|]. intros Hin; apply Hc; now right.
Qed.

Lemma contains_sep (a x y : pystr) (c : codepoint) :
  ~ In c a -> contains a (x ++ c :: y) = contains a x || contains a y.
Proof.
  intros Hc. induction x as [|x0 x IH].
  - cbn [app contains].
    pose proof (startswith_sep a [] y c Hc) as E. cbn [app] in E.
    rewrite E. destruct (startswith [] a); reflexivity.
  - cbn [app contains]. rewrite IH.
    change (x0 :: x ++ c :: y) with ((x0 :: x) ++ c :: y).
    rewrite (startswith_sep a (x0 :: x) y c Hc).
    now rewrite orb_assoc.
Qed.

(** ** [replace] *)

Lemma replace_from_none (old new s : pystr) :
  contains old s = false -> replace_from old new 0 s = s.
Proof.
  induction s as [|c s IH]; simpl; [reflexivity|].
  intros H. apply orb_false_iff in H as [H1 H2].
  cbn [startswith] in H1. rewrite H1, (IH H2). reflexivity.
Qed.

Lemma replace_from_sep (old new y : pystr) (c : codepoint) :
  old <> [] -> ~ In c old ->
  forall x k, k <= length x ->
    replace_from old new k (x ++ c :: y)
    = replace_from old new k x ++ c :: replace_from old new 0 y.
Proof.
  intros Hne Hc x. induction x as [|x0 x IH]; intros k Hk.
  - assert (k = 0) as -> by (simpl in Hk; lia).
    cbn [app replace_from].
    pose proof (startswith_sep old [] y c Hc) as E. cbn [app] in E.
    rewrite E. destruct old as [|o old']; [congruence|]. reflexivity.
  - destruct k as [|k].
    + cbn [app replace_from].
      change (x0 :: x ++ c :: y) with ((x0 :: x) ++ c :: y).
      rewrite (startswith_sep old (x0 :: x) y c Hc).
      destruct (startswith (x0 :: x) old) eqn:E.
      * apply startswith_length in E. simpl in E.
        rewrite IH by lia. now rewrite app_assoc.
      * rewrite IH by lia. reflexivity.
    + cbn [app replace_from]. apply IH. simpl in Hk; lia.
Qed.

(** ** [strip] *)

Lemma dropwhile_head (p : codepoint -> bool) (s : pystr) :
  match dropwhile p s with [] => True | c :: _ => p c = false end.
Proof.
  induction s as [|c s IH]; simpl; [exact I|].
  destruct (p c) eqn:E; [exact IH | exact E].
Qed.

Lemma dropwhile_id (p : codepoint -> bool) (s : pystr) :
  match s with [] => True | c :: _ => p c = false end ->
  dropwhile p s = s.
Proof. destruct s as [|c s]; simpl; intros H; [reflexivity | now rewrite H]. Qed.

Lemma dropwhile_suffix (p : codepoint -> bool) (s : pystr) :
  exists pre, s = pre ++ dropwhile p s /\ forallb p pre = true.
Proof.
  induction s as [|c s (pre & IH & Hp)]; simpl.
  - now exists [].
  - destruct (p c) eqn:E.
    + exists (c :: pre). simpl. rewrite E, Hp. split; [now f_equal | reflexivity].
    + now exists [].
Qed.

(** Dropping from the front keeps the last character. *)
Lemma dropwhile_keeps_last (p : codepoint -> bool) (s : pystr) (c : codepoint) :
  p c = false -> dropwhile p (s ++ [c]) = dropwhile p s ++ [c].
Proof.
  intros H. induction s as [|a s IH]; simpl.
  - now rewrite H.
  - destruct (p a); [exact IH | reflexivity].
Qed.

Lemma strip_trimmed (s : pystr) : trimmed (strip s) = true.
Proof.
  unfold trimmed, strip, rstrip, lstrip.
  rewrite rev_involutive.
  pose proof (dropwhile_head isspace (rev (dropwhile isspace s))) as Hlast.
  pose proof (dropwhile_head isspace s) as Hfirst.
  destruct (dropwhile isspace s) as [|c t] eqn:E; [reflexivity|].
  apply andb_true_iff; split.
  - (* the first character survives the right strip *)
    cbn [rev]. cbn [rev] in Hlast.
    rewrite (dropwhile_keeps_last isspace (rev t) c Hfirst).
    rewrite rev_app_distr. cbn. now rewrite Hfirst.
  - destruct (dropwhile isspace (rev (c :: t))); [reflexivity|].
    now rewrite Hlast.
Qed.

Lemma trimmed_strip (s : pystr) : trimmed s = true -> strip s = s.
Proof.
  unfold trimmed, strip, rstrip, lstrip. intros H.
  apply andb_true_iff in H as [H1 H2].
  rewrite (dropwhile_id isspace s).
  - rewrite (dropwhile_id isspace (rev s)); [apply rev_involutive|].
    destruct (rev s); [exact I | now apply negb_true_iff].
  - destruct s; [exact I | now apply negb_true_iff].
Qed.

Lemma strip_idempotent (s : pystr) : strip (strip s) = strip s.
Proof. apply trimmed_strip, strip_trimmed. Qed.

(** [strip] returns a substring of its argument. *)
Lemma strip_substring (s : pystr) : substring (strip s) s.
Proof.
  unfold strip, rstrip, lstrip.
  destruct (dropwhile_suffix isspace s) as (pre & Hs & _).
  destruct (dropwhile_suffix isspace (rev (dropwhile isspace s))) as (post & Hr & _).
  exists pre, (rev post).
  rewrite <- rev_app_distr, <- Hr, rev_involutive. exact Hs.
Qed.

Lemma substring_trans (a b c : pystr) :
  substring a b -> substring b c -> substring a c.
Proof.
  intros (p1 & q1 & ->) (p2 & q2 & ->).
  exists (p2 ++ p1), (q1 ++ q2). now rewrite <- !app_assoc.
Qed.

Lemma contains_strip (a s : pystr) :
  contains a s = false -> contains a (strip s) = false.
Proof.
  rewrite !contains_false. intros H Hs. apply H.
  eapply substring_trans; [exact Hs | apply strip_substring].
Qed.

Lemma not_contains_not_startswith (a s : pystr) :
  contains a s = false -> startswith s a = false.
Proof.
  destruct s; simpl; intros H; now apply orb_false_iff in H as [H _].
Qed.

Lemma dropwhile_all (p : codepoint -> bool) (u : pystr) :
  forallb p u = true -> dropwhile p u = [].
Proof.
  induction u as [|x u IH]; simpl; [reflexivity|].
  intros H. apply andb_true_iff in H as [Hx Hu]. now rewrite Hx, IH.
Qed.

Lemma dropwhile_skip (p : codepoint -> bool) (u v : pystr) :
  forallb p u = true ->
  match v with [] => True | c :: _ => p c = false end ->
  dropwhile p (u ++ v) = v.
Proof.
  intros Hu Hv. induction u as [|x u IH]; cbn [app].
  - now apply dropwhile_id.
  - simpl in Hu. apply andb_true_iff in Hu as [Hx Hu].
    cbn [dropwhile]. rewrite Hx. now apply IH.
Qed.

(** Whitespace around a text does not survive [strip]. *)
Lemma strip_padded (s : pystr) (a b : codepoint) :
  isspace a = true -> isspace b = true -> strip (a :: s ++ [b]) = strip s.
Proof.
  intros Ha Hb. unfold strip, lstrip, rstrip.
  cbn [dropwhile]. rewrite Ha.
  destruct (dropwhile_suffix isspace s) as (pre & Hs & Hpre).
  pose proof (dropwhile_head isspace s) as Hc.
  destruct (dropwhile isspace s) as [|c t] eqn:E.
  - (* [s] is all whitespace *)
    rewrite app_nil_r in Hs. rewrite <- Hs in Hpre.
    rewrite (dropwhile_all isspace (s ++ [b])); [reflexivity|].
    rewrite forallb_app, Hpre. simpl. now rewrite Hb.
  - assert (s ++ [b] = pre ++ (c :: t ++ [b])) as ->
      by (rewrite Hs at 1; now rewrite <- app_assoc).
    rewrite dropwhile_skip by assumption.
    change (c :: t ++ [b]) with ((c :: t) ++ [b]).
    rewrite rev_app_distr. cbn [rev app dropwhile]. now rewrite Hb.
Qed.

End StringFacts.

(* ================================================================== *)
(** * Facts about fence removal *)
(* ================================================================== *)

Section FenceFacts.
Import Llms.

Lemma unfence_fence (t : pystr) : unfence (fence ++ t) = unfence t.
Proof. reflexivity. Qed.

Lemma unfence_other (c : codepoint) (t : pystr) :
  startswith (c :: t) fence = false -> unfence (c :: t) = c :: unfence t.
Proof. unfold unfence. cbn [replace_from]. now intros ->. Qed.

(** One pass removes every triple backtick: what is left of a run of
    backticks is shorter than three. *)
Lemma unfence_invariant (n : nat) :
  forall s, length s <= n ->
    (startswith (unfence s) [96%N] = true -> startswith s [96%N] = true)
    /\ (startswith (unfence s) [96%N; 96%N] = true
        -> startswith s [96%N; 96%N] = true)
    /\ contains fence (unfence s) = false.
Proof.
  induction n as [|n IH]; intros s Hlen.
  - destruct s; [|simpl in Hlen; lia]. now repeat split.
  - destruct s as [|c t]; [now repeat split|].
    destruct (startswith (c :: t) fence) eqn:E.
    + destruct (startswith_inv _ _ E) as [t' Ht']. rewrite Ht'.
      rewrite unfence_fence.
      assert (length t' <= n) as Hl.
      { apply (f_equal (@length _)) in Ht'. rewrite length_app in Ht'.
        simpl in Ht', Hlen. lia. }
      destruct (IH t' Hl) as (_ & _ & H3).
      repeat split; auto.
    + rewrite (unfence_other c t E).
      assert (length t <= n) as Hl by (simpl in Hlen; lia).
      destruct (IH t Hl) as (H1 & H2 & H3).
      repeat split.
      * intros H. exact H.
      * rewrite !startswith_cons. intros H.
        apply andb_true_iff in H as [Hc Hr].
        rewrite Hc. cbn [andb]. now apply H1.
      * cbn [contains]. rewrite H3, orb_false_r.
        destruct (startswith (c :: unfence t) fence) eqn:F; [|reflexivity].
        change fence with [96%N; 96%N; 96%N] in F, E.
        rewrite startswith_cons in F, E.
        apply andb_true_iff in F as [Fc Fr].
        rewrite Fc in E. cbn [andb] in E.
        rewrite (H2 Fr) in E. discriminate.
Qed.

Lemma unfence_clean (s : pystr) :
  contains fence (replace s fence []) = false.
Proof.
  change (replace s fence []) with (unfence s).
  now destruct (unfence_invariant (length s) s (le_n _)) as (_ & _ & H).
Qed.

Lemma no_fence_no_fence_json (s : pystr) :
  contains fence s = false -> contains fence_json s = false.
Proof.
  rewrite !contains_false. intros H (pre & post & ->). apply H.
  exists pre, (py "json" ++ post). reflexivity.
Qed.

(** After cleaning, no fence marker is left anywhere in the text. *)
Lemma cleaned_no_fence (text : pystr) :
  startswith (strip text) fence = true ->
  contains fence (cleaned text) = false.
Proof.
  intros H. unfold cleaned. rewrite H.
  apply contains_strip, unfence_clean.
Qed.

Lemma cleaned_bare (text : pystr) :
  startswith (strip text) fence = false -> cleaned text = strip text.
Proof. intros H. unfold cleaned. now rewrite H. Qed.

Lemma cleaned_trimmed (text : pystr) : trimmed (cleaned text) = true.
Proof.
  unfold cleaned. destruct (startswith (strip text) fence); apply strip_trimmed.
Qed.

(** The cleaning step is idempotent. *)
Lemma cleaned_idempotent (text : pystr) : cleaned (cleaned text) = cleaned text.
Proof.
  assert (strip (cleaned text) = cleaned text) as Hs
    by apply trimmed_strip, cleaned_trimmed.
  destruct (startswith (strip text) fence) eqn:E.
  - pose proof (cleaned_no_fence text E) as Hn.
    rewrite cleaned_bare; [exact Hs|].
    rewrite Hs. now apply not_contains_not_startswith.
  - rewrite (cleaned_bare text E) at 1 2.
    unfold cleaned at 1. rewrite !strip_idempotent, E. reflexivity.
Qed.

Lemma fenced_trimmed (tag payload : pystr) :
  trimmed (fenced tag payload) = true.
Proof.
  unfold trimmed, fenced.
  replace (fence ++ tag ++ nl :: payload ++ nl :: fence)
    with ((fence ++ tag ++ nl :: payload ++ [nl]) ++ fence)
    by (rewrite <- !app_assoc; cbn [app]; now rewrite <- !app_assoc).
  rewrite rev_app_distr. reflexivity.
Qed.

Lemma replace_fence_json_body (payload : pystr) :
  contains fence payload = false ->
  replace_from fence_json [] 0 (payload ++ nl :: fence) = payload ++ nl :: fence.
Proof.
  intros H.
  rewrite replace_from_sep; try (cbv; intuition discriminate); [|lia].
  rewrite replace_from_none by now apply no_fence_no_fence_json.
  reflexivity.
Qed.

Lemma replace_fence_body (payload : pystr) :
  contains fence payload = false ->
  replace_from fence [] 0 (payload ++ nl :: fence) = payload ++ [nl].
Proof.
  intros H.
  rewrite replace_from_sep; try (cbv; intuition discriminate); [|lia].
  rewrite replace_from_none by assumption.
  reflexivity.
Qed.

Lemma replace_fence_eq (s : pystr) :
  replace s fence [] = replace_from fence [] 0 s.
Proof. reflexivity. Qed.

Lemma replace_fence_json_eq (s : pystr) :
  replace s fence_json [] = replace_from fence_json [] 0 s.
Proof. reflexivity. Qed.

Lemma fenced_json_eq (payload : pystr) :
  fenced (py "json") payload = fence_json ++ nl :: (payload ++ nl :: fence).
Proof. reflexivity. Qed.

Lemma fenced_plain_eq (payload : pystr) :
  fenced [] payload = fence ++ nl :: (payload ++ nl :: fence).
Proof. reflexivity. Qed.

Ltac sep_side := first [lia | discriminate | cbv; intuition discriminate].

Lemma unfence_fenced (tag payload : pystr) :
  tag = py "json" \/ tag = [] ->
  contains fence payload = false ->
  replace (replace (fenced tag payload) fence_json []) fence []
  = nl :: payload ++ [nl].
Proof.
  intros [-> | ->] H;
    rewrite replace_fence_eq, replace_fence_json_eq.
  - rewrite fenced_json_eq.
    rewrite replace_from_sep by sep_side.
    rewrite replace_fence_json_body by assumption.
    change (replace_from fence_json [] 0 fence_json) with (@nil codepoint).
    rewrite (replace_from_sep fence [] (payload ++ nl :: fence) nl
               ltac:(discriminate) ltac:(cbv; intuition discriminate)
               [] 0 (le_n _)).
    now rewrite replace_fence_body.
  - rewrite fenced_plain_eq.
    rewrite replace_from_sep by sep_side.
    rewrite replace_fence_json_body by assumption.
    change (replace_from fence_json [] 0 fence) with fence.
    rewrite replace_from_sep by sep_side.
    now rewrite replace_fence_body.
Qed.

(** A fenced payload free of triple backticks is cleaned to the
    stripped payload, with the [json] tag or with none. *)
Lemma cleaned_fenced (tag payload : pystr) :
  tag = py "json" \/ tag = [] ->
  contains fence payload = false ->
  cleaned (fenced tag payload) = strip payload.
Proof.
  intros Htag H. unfold cleaned.
  rewrite (trimmed_strip _ (fenced_trimmed tag payload)).
  unfold fenced at 1. rewrite startswith_app.
  rewrite (unfence_fenced tag payload Htag H).
  now apply strip_padded.
Qed.

Lemma cleaned_unfenced (payload : pystr) :
  contains fence payload = false -> cleaned payload = strip payload.
Proof.
  intros H. apply cleaned_bare.
  now apply not_contains_not_startswith, contains_strip.
Qed.

End FenceFacts.

(* ================================================================== *)
(** * Running the task-level operations *)
(* ================================================================== *)

Create HintDb run discriminated.

Section Runs.
Context {rt : Runtime}.

Lemma one_call_returns {A} (m : M A) prompt post w text :
  one_call m prompt post -> answers w prompt text -> returns m w (post text).
Proof. unfold returns, answers. intros H E. now rewrite H, E. Qed.

Lemma one_call_inv {A} (m : M A) prompt post w a :
  one_call m prompt post -> returns m w a ->
  exists text, answers w prompt text /\ a = post text.
Proof.
  unfold returns, answers. intros H. rewrite H.
  destruct (chat_complete (calls w) (request_for prompt)) as [text|e];
    cbn; intros E; [|discriminate].
  exists text. split; congruence.
Qed.

Lemma one_call_sent {A} (m : M A) prompt post w :
  one_call m prompt post -> sent m w = [request_for prompt].
Proof.
  unfold sent. intros H. rewrite H.
  destruct (chat_complete (calls w) (request_for prompt)); cbn;
    now rewrite skipn_app, skipn_all, Nat.sub_diag.
Qed.

Ltac run :=
  intros w;
  unfold classify_inquiry_of, CLASSIFY_PROMPT_of,
    Llms.classify_inquiry, Api.classify_inquiry,
    Llms.bank_support_reply, Api.generate_support_reply,
    Llms.generate_mortgage_email, Llms.summarize_newsletter,
    Llms.mistral_call, Api.mistral_call, bind, ret, after, request_for;
  cbv beta zeta;
  match goal with
  | |- context [chat_complete ?c ?r] => now destruct (chat_complete c r)
  end.

Lemma classify_run (f : source_file) (inquiry : pystr) :
  one_call (classify_inquiry_of f inquiry) (CLASSIFY_PROMPT_of f inquiry)
    (fun text => first_allowed_in (set_iter allowed) (str_lower (strip text))).
Proof. destruct f; run. Qed.

Lemma bank_support_reply_run (inquiry category : pystr) :
  one_call (Llms.bank_support_reply inquiry category)
    (Llms.bank_support_reply_prompt inquiry category) strip.
Proof. run. Qed.

Lemma generate_support_reply_run (inquiry category : pystr) :
  one_call (Api.generate_support_reply inquiry category)
    (Api.generate_support_reply_prompt inquiry category) strip.
Proof. run. Qed.

Lemma generate_mortgage_email_run (email_text : pystr) :
  one_call (Llms.generate_mortgage_email email_text)
    (Llms.generate_mortgage_email_prompt email_text) strip.
Proof. run. Qed.

Lemma summarize_newsletter_run (newsletter : pystr) :
  one_call (Llms.summarize_newsletter newsletter)
    (Llms.summarize_newsletter_prompt newsletter) strip.
Proof. run. Qed.

Lemma safe_json_parse_total (text : pystr) :
  Llms.safe_json_parse text = Ok (parsed text).
Proof.
  unfold Llms.safe_json_parse, parsed.
  now destruct (json_loads (Llms.cleaned text)).
Qed.

Lemma extract_medical_json_run (notes : pystr) :
  one_call (Llms.extract_medical_json notes)
    (Llms.extract_medical_json_prompt notes)
    (fun text => (strip text, fst (parsed (strip text)), snd (parsed (strip text)))).
Proof.
  intros w. unfold Llms.extract_medical_json, bind, ret, lift,
    Llms.mistral_call, after, request_for. cbv beta zeta.
  destruct (chat_complete (calls w) _) as [text|e]; [|reflexivity].
  rewrite safe_json_parse_total. now destruct (parsed (strip text)).
Qed.

(** ** The loop over [allowed] *)

Lemma first_allowed_in_cases (iteration : list pystr) (out : pystr) :
  (exists before a after_,
      iteration = before ++ a :: after_
      /\ contains a out = true
      /\ (forall b, In b before -> contains b out = false)
      /\ first_allowed_in iteration out = a)
  \/ ((forall b, In b iteration -> contains b out = false)
      /\ first_allowed_in iteration out = py "customer service").
Proof.
  induction iteration as [|a rest IH]; cbn [first_allowed_in].
  - right. split; [intros b []|reflexivity].
  - destruct (contains a out) eqn:E.
    + left. exists [], a, rest. repeat split; auto. intros b [].
    + destruct IH as [(before & c & after_ & -> & Hc & Hb & Hr)|[Hn Hr]].
      * left. exists (a :: before), c, after_. repeat split; auto.
        intros b [<-|Hin]; auto.
      * right. split; [|exact Hr]. intros b [<-|Hin]; auto.
Qed.

Lemma set_iter_allowed (a : pystr) : In a (set_iter allowed) <-> In a allowed.
Proof.
  assert (NoDup allowed) as Hnd.
  { unfold allowed. repeat constructor; cbv; intuition discriminate. }
  pose proof (set_iter_perm allowed Hnd) as P. split; intros H.
  - eapply Permutation_in; [exact P | exact H].
  - eapply Permutation_in; [apply Permutation_sym; exact P | exact H].
Qed.

Lemma fallback_allowed : In (py "customer service") allowed.
Proof. unfold allowed. cbn [In]. tauto. Qed.

Lemma first_allowed_in_allowed (out : pystr) :
  In (first_allowed_in (set_iter allowed) out) allowed.
Proof.
  destruct (first_allowed_in_cases (set_iter allowed) out)
    as [(before & a & after_ & E & _ & _ & ->)|[_ ->]].
  - apply set_iter_allowed. rewrite E. apply in_elt.
  - apply fallback_allowed.
Qed.

Lemma allowed_trimmed (a : pystr) : In a allowed -> trimmed a = true.
Proof.
  unfold allowed. cbn [In].
  intros H; repeat (destruct H as [<-|H]; [reflexivity|]); destruct H.
Qed.

End Runs.

#[global] Hint Resolve classify_run bank_support_reply_run
  generate_support_reply_run generate_mortgage_email_run
  summarize_newsletter_run extract_medical_json_run : run.

(* ================================================================== *)
(** * Streamlit calls and the request body *)
(* ================================================================== *)

Section Calls.
Context {rt : Runtime}.

Lemma draw_accepted (x : widget) (w : world) :
  st_call x = Ok tt -> draw x w = (Ok tt, drawn w [x]).
Proof. intros H. unfold draw. now rewrite H. Qed.

Lemma draw_plain (x : widget) (w : world) :
  plain x = true -> draw x w = (Ok tt, drawn w [x]).
Proof. intros H. apply draw_accepted. now apply st_call_plain. Qed.

Lemma draw_refused (x : widget) (w : world) (e : pyexn) :
  st_call x = Raised e -> draw x w = (Raised e, w).
Proof. intros H. unfold draw. now rewrite H. Qed.


Lemma bind_draw_accepted {B} (x : widget) (k : unit -> M B) (w : world) :
  st_call x = Ok tt -> bind (draw x) k w = k tt (drawn w [x]).
Proof. intros H. unfold bind. now rewrite (draw_accepted x w H). Qed.

Lemma bind_draw_plain {B} (x : widget) (k : unit -> M B) (w : world) :
  plain x = true -> bind (draw x) k w = k tt (drawn w [x]).
Proof. intros H. apply bind_draw_accepted. now apply st_call_plain. Qed.

Lemma bind_draw_refused {B} (x : widget) (k : unit -> M B) (w : world) (e : pyexn) :
  st_call x = Raised e -> bind (draw x) k w = (Raised e, w).
Proof. intros H. unfold bind. now rewrite (draw_refused x w e H). Qed.

Lemma chat_lacks_message (body : pyval) (w : world) :
  lacks_message body -> Api.chat body w = (Ok message_required, w).
Proof.
  unfold Api.chat. intros [H|(d & -> & H)].
  - rewrite H. reflexivity.
  - destruct d as [|p d]; [reflexivity|].
    cbn [truthy]. cbv zeta. rewrite H. reflexivity.
Qed.

Lemma chat_carries (body : pyval) (s : pystr) (w : world) :
  carries body s ->
  Api.chat body w
  = match strip s with
    | [] => (Ok message_required, w)
    | _ :: _ =>
        bind (Api.classify_inquiry (strip s))
          (fun category =>
             bind (Api.generate_support_reply (strip s) category)
               (fun reply =>
                  ret (Api.Response 200
                         [ (py "message", PStr (strip s));
                           (py "category", PStr category);
                           (py "reply", PStr reply) ]))) w
    end.
Proof.
  intros (d & -> & H). unfold Api.chat.
  destruct d as [|p d]; [discriminate|].
  cbn [truthy]. cbv zeta. rewrite H.
  assert ((if truthy (PStr s) then PStr s else PStr []) = PStr s) as ->
    by now destruct s.
  now destruct (strip s).
Qed.

End Calls.

(* ================================================================== *)
(** * Label normaliser *)
(* ================================================================== *)

(** C1.  Whatever text the generation service returns for the
    classification prompt, [classify_inquiry] (in [llms.py] and in
    [api.py]) returns, and what it returns is one of the seven labels of
    the [allowed] set. *)
Theorem classify_returns_allowed_label :
  forall (rt : Runtime) (f : source_file) (inquiry : pystr) (w : world)
         (text : pystr),
    answers w (CLASSIFY_PROMPT_of f inquiry) text ->
    exists c, returns (classify_inquiry_of f inquiry) w c /\ In c allowed.
Proof.
  intros rt f inquiry w text H.
  eexists. split.
  - eapply one_call_returns; [apply classify_run | exact H].
  - apply first_allowed_in_allowed.
Qed.

Lemma classify_returns_allowed_label_witness :
  answers (rt := rt_noisy) fresh
    (CLASSIFY_PROMPT_of llms_py (py "Where is my card?")) noisy_answer
  /\ exists c,
      returns (classify_inquiry_of (rt := rt_noisy) llms_py (py "Where is my card?"))
        fresh c
      /\ In c allowed.
Proof.
  split; [reflexivity|].
  apply (classify_returns_allowed_label rt_noisy llms_py (py "Where is my card?")
           fresh noisy_answer).
  reflexivity.
Defined.

(** C2, as the code has it.  When the normalised text contains a label,
    [classify_inquiry] returns the first label, in the order in which the
    [allowed] set yields its elements, that occurs in the text; no label
    yielded before it occurs in the text.  When that order is the
    declaration order, it is the first label in declaration order.  The
    result is a function of the generation output and of the iteration
    order. *)
Theorem classify_returns_first_in_iteration_order :
  forall (rt : Runtime) (f : source_file) (inquiry : pystr) (w : world)
         (text : pystr),
    answers w (CLASSIFY_PROMPT_of f inquiry) text ->
    labels_in (str_lower (strip text)) <> [] ->
    exists before c after_,
      set_iter allowed = before ++ c :: after_
      /\ contains c (str_lower (strip text)) = true
      /\ (forall b, In b before -> contains b (str_lower (strip text)) = false)
      /\ returns (classify_inquiry_of f inquiry) w c
      /\ (set_iter allowed = allowed ->
          first_in_declaration_order (str_lower (strip text)) = Some c).
Proof.
  intros rt f inquiry w text H Hsome.
  pose proof (one_call_returns _ _ _ w text (classify_run f inquiry) H) as R.
  cbv beta in R.
  set (out := str_lower (strip text)) in *.
  destruct (first_allowed_in_cases (set_iter allowed) out)
    as [(before & c & after_ & E & Hc & Hb & Hr)|[Hn _]].
  - exists before, c, after_. rewrite Hr in R. repeat split; auto.
    intros Hdecl. unfold first_in_declaration_order.
    rewrite <- Hdecl, E. clear - Hc Hb.
    induction before as [|b before IH]; cbn [app find].
    + now rewrite Hc.
    + rewrite (Hb b (or_introl eq_refl)). apply IH.
      intros x Hx. apply Hb. now right.
  - exfalso. apply Hsome. unfold labels_in.
    assert (forall l, (forall b, In b l -> contains b out = false) ->
                      filter (fun a => contains a out) l = []) as Hf.
    { induction l as [|x l IH]; cbn [filter]; [reflexivity|].
      intros Hl. rewrite (Hl x (or_introl eq_refl)). apply IH.
      intros b Hb. apply Hl. now right. }
    apply Hf. intros b Hb. apply Hn. now apply set_iter_allowed.
Qed.

Lemma classify_returns_first_in_iteration_order_witness :
  answers (rt := rt_two_labels) fresh (CLASSIFY_PROMPT_of api_py (py "hello")) two_labels
  /\ labels_in (ascii_lower (strip two_labels)) <> []
  /\ exists before c after_,
      reversed_order allowed = before ++ c :: after_
      /\ contains c (ascii_lower (strip two_labels)) = true
      /\ (forall b, In b before -> contains b (ascii_lower (strip two_labels)) = false)
      /\ returns (classify_inquiry_of (rt := rt_two_labels) api_py (py "hello")) fresh c
      /\ (reversed_order allowed = allowed ->
          first_in_declaration_order (ascii_lower (strip two_labels)) = Some c).
Proof.
  assert (answers (rt := rt_two_labels) fresh
            (CLASSIFY_PROMPT_of api_py (py "hello")) two_labels) as Ha by reflexivity.
  assert (labels_in (ascii_lower (strip two_labels)) <> []) as Hl
    by (vm_compute; discriminate).
  split; [exact Ha|]. split; [exact Hl|].
  exact (classify_returns_first_in_iteration_order rt_two_labels api_py (py "hello")
           fresh two_labels Ha Hl).
Defined.

(** C2 as stated fails.  A set yields its elements in the order of its
    hash table, which for strings changes from one interpreter process to
    the next.  With a set that yields "change pin" before "card arrival",
    the generation output "Card Arrival or Change PIN" contains two
    labels, "card arrival" is the first of them in declaration order, and
    [classify_inquiry] returns "change pin". *)
Lemma classify_not_first_in_declaration_order :
  labels_in (ascii_lower (strip two_labels)) = [py "card arrival"; py "change pin"]
  /\ first_in_declaration_order (ascii_lower (strip two_labels))
     = Some (py "card arrival")
  /\ returns (Llms.classify_inquiry (rt := rt_two_labels) (py "Where is my card?"))
       fresh (py "change pin")
  /\ returns (Api.classify_inquiry (rt := rt_two_labels) (py "Where is my card?"))
       fresh (py "change pin")
  /\ py "change pin" <> py "card arrival".
Proof.
  repeat split; try reflexivity. discriminate.
Qed.

(** C3.  [classify_inquiry] strips and lower-cases the generated text and
    tests each label for containment as a substring: when no label occurs
    in the normalised text it returns "customer service"; when some label
    occurs in it, with any text around it, it returns a label that occurs
    in it. *)
Theorem classify_matches_substring_or_falls_back :
  forall (rt : Runtime) (f : source_file) (inquiry : pystr) (w : world)
         (text : pystr),
    answers w (CLASSIFY_PROMPT_of f inquiry) text ->
    ((forall a, In a allowed -> ~ substring a (str_lower (strip text))) ->
     returns (classify_inquiry_of f inquiry) w (py "customer service"))
    /\ (forall a, In a allowed -> substring a (str_lower (strip text)) ->
        exists c, returns (classify_inquiry_of f inquiry) w c
                  /\ In c allowed /\ substring c (str_lower (strip text))).
Proof.
  intros rt f inquiry w text H.
  pose proof (one_call_returns _ _ _ w text (classify_run f inquiry) H) as R.
  cbv beta in R.
  set (out := str_lower (strip text)) in *.
  destruct (first_allowed_in_cases (set_iter allowed) out)
    as [(before & c & after_ & E & Hc & Hb & Hr)|[Hn Hr]]; rewrite Hr in R.
  - split.
    + intros Hnone. exfalso. apply (Hnone c).
      * apply set_iter_allowed. rewrite E. apply in_elt.
      * now apply contains_spec.
    + intros a _ _. exists c. repeat split; auto.
      * apply set_iter_allowed. rewrite E. apply in_elt.
      * now apply contains_spec.
  - split; [intros _; exact R|].
    intros a Ha Hsub. exfalso.
    apply contains_spec in Hsub.
    rewrite (Hn a) in Hsub; [discriminate|]. now apply set_iter_allowed.
Qed.

Lemma classify_matches_substring_or_falls_back_witness :
  answers (rt := rt_no_label) fresh
    (CLASSIFY_PROMPT_of llms_py (py "Can you fix my laptop?")) (py "I cannot tell.")
  /\ (forall a, In a allowed ->
        ~ substring a (ascii_lower (strip (py "I cannot tell."))))
  /\ returns (classify_inquiry_of (rt := rt_no_label) llms_py
                (py "Can you fix my laptop?")) fresh (py "customer service").
Proof.
  assert (answers (rt := rt_no_label) fresh
            (CLASSIFY_PROMPT_of llms_py (py "Can you fix my laptop?"))
            (py "I cannot tell.")) as Ha by reflexivity.
  assert (forall a, In a allowed ->
            ~ substring a (ascii_lower (strip (py "I cannot tell.")))) as Hn.
  { intros a Hin. apply contains_false.
    unfold allowed in Hin. cbn [In] in Hin.
    repeat (destruct Hin as [<-|Hin]; [reflexivity|]). destruct Hin. }
  split; [exact Ha|]. split; [exact Hn|].
  exact (proj1 (classify_matches_substring_or_falls_back rt_no_label llms_py
                  (py "Can you fix my laptop?") fresh (py "I cannot tell.") Ha) Hn).
Defined.

(* ================================================================== *)
(** * Structured-output parser *)
(* ================================================================== *)

(** C4, as the code has it.  On a payload free of triple backticks,
    wrapped in a fence with the lower-case tag [json] or with no tag,
    [safe_json_parse] hands the stripped interior, without fence markers
    and language tag, to the JSON decoder and returns what the decoder
    gives; on [```json\n{"age": 30}\n```] the decoder receives
    [{"age": 30}] and the result is the dict [{age: 30}] with no error. *)
Theorem safe_json_parse_fenced_age :
  (forall (rt : Runtime) (tag payload : pystr),
      tag = py "json" \/ tag = [] ->
      contains Llms.fence payload = false ->
      Llms.cleaned (fenced tag payload) = strip payload
      /\ Llms.safe_json_parse (fenced tag payload)
         = match json_loads (strip payload) with
           | Ok data => Ok (data, None)
           | Raised e => Ok (PNone, Some (str_exn e))
           end)
  /\ fenced (py "json") age_payload
     = py "```json" ++ nl :: age_payload ++ nl :: py "```"
  /\ Llms.cleaned (fenced (py "json") age_payload) = age_payload
  /\ forall service,
      @Llms.safe_json_parse (runtime_declared service) (fenced (py "json") age_payload)
      = Ok (PDict [(py "age", PInt 30)], None).
Proof.
  split; [|repeat split].
  intros rt tag payload Htag H.
  assert (Llms.cleaned (fenced tag payload) = strip payload) as E
    by (apply cleaned_fenced; [exact Htag | exact H]).
  split; [exact E|].
  unfold Llms.safe_json_parse. now rewrite E.
Qed.

Lemma safe_json_parse_fenced_age_witness :
  (py "json" = py "json" \/ py "json" = [])
  /\ contains Llms.fence age_payload = false
  /\ Llms.cleaned (fenced (py "json") age_payload) = strip age_payload
  /\ Llms.safe_json_parse (rt := rt_down) (fenced (py "json") age_payload)
     = match Json.loads 1000 (strip age_payload) with
       | Ok data => Ok (data, None)
       | Raised e => Ok (PNone, Some (str_exn e))
       end.
Proof.
  split; [now left|]. split; [reflexivity|].
  exact (proj1 safe_json_parse_fenced_age rt_down (py "json") age_payload
           (or_introl eq_refl) eq_refl).
Defined.

(** C4 as stated fails.  [```JSON\n{"age": 30}\n```] is JSON wrapped in
    markdown fences with a language tag; the interior decodes to the dict
    [{age: 30}], but the code removes only the lower-case [json] tag: the
    decoder receives [JSON\n{"age": 30}] and the result is no value and
    the error "Expecting value: line 1 column 1 (char 0)".  Nor is the
    interior always parsed as it stands: the interior [{"a": "x```y"}]
    decodes to a dict whose value holds a triple backtick, and fenced it
    parses to a dict whose value is [xy]. *)
Lemma safe_json_parse_keeps_other_tag :
  fenced (py "JSON") age_payload
  = py "```JSON" ++ nl :: age_payload ++ nl :: py "```"
  /\ Json.loads 1000 age_payload = Ok (PDict [(py "age", PInt 30)])
  /\ Llms.cleaned (fenced (py "JSON") age_payload) = py "JSON" ++ nl :: age_payload
  /\ Llms.safe_json_parse (rt := rt_down) (fenced (py "JSON") age_payload)
     = Ok (PNone, Some (py "Expecting value: line 1 column 1 (char 0)"))
  /\ Llms.safe_json_parse (rt := rt_down) (fenced (py "JSON") age_payload)
     <> Ok (PDict [(py "age", PInt 30)], None)
  /\ Json.loads 1000 inner_backtick_payload = Ok (PDict [(py "a", PStr (py "x```y"))])
  /\ Llms.safe_json_parse (rt := rt_down) (fenced (py "json") inner_backtick_payload)
     = Ok (PDict [(py "a", PStr (py "xy"))], None).
Proof.
  repeat split. discriminate.
Qed.

(** C5.  [safe_json_parse] never raises: it returns a pair for every
    text.  When the JSON decoder rejects the cleaned text, the pair is
    [(None, str(e))]; [extract_medical_json] then returns the raw text it
    gave to the parser unchanged, no parsed value, and the error
    description.  On "not json at all" the description is
    "Expecting value: line 1 column 1 (char 0)". *)
Theorem safe_json_parse_failure_is_data :
  (forall (rt : Runtime) (text : pystr),
      exists data err, Llms.safe_json_parse text = Ok (data, err))
  /\ (forall (rt : Runtime) (text : pystr) (e : pyexn),
         json_loads (Llms.cleaned text) = Raised e ->
         Llms.safe_json_parse text = Ok (PNone, Some (str_exn e)))
  /\ (forall (rt : Runtime) (notes : pystr) (w : world) (text : pystr) (e : pyexn),
         answers w (Llms.extract_medical_json_prompt notes) text ->
         json_loads (Llms.cleaned (strip text)) = Raised e ->
         returns (Llms.extract_medical_json notes) w
           (strip text, PNone, Some (str_exn e)))
  /\ (forall service,
         @Llms.safe_json_parse (runtime_declared service) (py "not json at all")
         = Ok (PNone, Some (py "Expecting value: line 1 column 1 (char 0)")))
  /\ (forall notes,
         @returns _
           (@Llms.extract_medical_json
              (runtime_declared (always (py "not json at all"))) notes)
           fresh
           (py "not json at all", PNone,
            Some (py "Expecting value: line 1 column 1 (char 0)"))).
Proof.
  split; [|split; [|split; [|split]]].
  - intros rt text. rewrite safe_json_parse_total.
    destruct (parsed text) as [data err]. now exists data, err.
  - intros rt text e H. unfold Llms.safe_json_parse. now rewrite H.
  - intros rt notes w text e Ha He.
    pose proof (one_call_returns _ _ _ w text (extract_medical_json_run notes) Ha) as R.
    cbv beta in R. unfold parsed in R. rewrite He in R. exact R.
  - intros service. reflexivity.
  - intros notes.
    apply (one_call_returns _ _ _ fresh (py "not json at all")
             (@extract_medical_json_run
                (runtime_declared (always (py "not json at all"))) notes)).
    reflexivity.
Qed.

Lemma safe_json_parse_failure_is_data_witness :
  answers (rt := rt_prose) fresh
    (Llms.extract_medical_json_prompt (py "A 60-year-old male")) (py " oops, {not json ")
  /\ Json.loads 1000 (Llms.cleaned (strip (py " oops, {not json ")))
     = Raised (JSONDecodeError (py "Expecting value") (py "oops, {not json") 0)
  /\ returns (Llms.extract_medical_json (rt := rt_prose) (py "A 60-year-old male")) fresh
       (strip (py " oops, {not json "), PNone,
        Some (str_exn (JSONDecodeError (py "Expecting value")
                         (py "oops, {not json") 0))).
Proof.
  assert (answers (rt := rt_prose) fresh
            (Llms.extract_medical_json_prompt (py "A 60-year-old male"))
            (py " oops, {not json ")) as Ha by reflexivity.
  assert (json_loads (Runtime := rt_prose) (Llms.cleaned (strip (py " oops, {not json ")))
          = Raised (JSONDecodeError (py "Expecting value") (py "oops, {not json") 0))
    as He by reflexivity.
  split; [exact Ha|]. split; [exact He|].
  exact (proj1 (proj2 (proj2 safe_json_parse_failure_is_data))
           rt_prose (py "A 60-year-old male") fresh (py " oops, {not json ") _ Ha He).
Defined.

(** C6, as the code has it.  For every payload that contains no triple
    backtick, [safe_json_parse] gives the same result on the bare payload
    and on the payload wrapped in fences, with the [json] tag or with
    none.  The cleaning step is idempotent for every text: cleaning twice
    gives the same text, hence the same parsed result, as cleaning once. *)
Theorem safe_json_parse_fence_insensitive :
  forall (rt : Runtime),
    (forall tag payload,
        tag = py "json" \/ tag = [] ->
        contains Llms.fence payload = false ->
        Llms.safe_json_parse (fenced tag payload) = Llms.safe_json_parse payload)
    /\ (forall text,
           Llms.cleaned (Llms.cleaned text) = Llms.cleaned text
           /\ Llms.safe_json_parse (Llms.cleaned text) = Llms.safe_json_parse text).
Proof.
  intros rt. split.
  - intros tag payload Htag H. unfold Llms.safe_json_parse.
    now rewrite (cleaned_fenced tag payload Htag H), (cleaned_unfenced payload H).
  - intros text. split; [apply cleaned_idempotent|].
    unfold Llms.safe_json_parse. now rewrite cleaned_idempotent.
Qed.

Lemma safe_json_parse_fence_insensitive_witness :
  (py "json" = py "json" \/ py "json" = [])
  /\ contains Llms.fence age_payload = false
  /\ Llms.safe_json_parse (rt := rt_down) (fenced (py "json") age_payload)
     = Llms.safe_json_parse (rt := rt_down) age_payload.
Proof.
  split; [now left|]. split; [reflexivity|].
  exact (proj1 (safe_json_parse_fence_insensitive rt_down)
           (py "json") age_payload (or_introl eq_refl) eq_refl).
Defined.

(** C6 as stated fails: [{"a": "```"}] is a JSON payload; bare, it parses
    to a dict whose value is three backticks; fenced, the backticks inside
    the value are removed with the fences and it parses to a dict whose
    value is the empty string. *)
Lemma safe_json_parse_fenced_differs :
  Json.loads 1000 backtick_payload = Ok (PDict [(py "a", PStr (py "```"))])
  /\ Llms.safe_json_parse (rt := rt_down) backtick_payload
     = Ok (PDict [(py "a", PStr (py "```"))], None)
  /\ Llms.safe_json_parse (rt := rt_down) (fenced (py "json") backtick_payload)
     = Ok (PDict [(py "a", PStr [])], None)
  /\ Llms.safe_json_parse (rt := rt_down) (fenced (py "json") backtick_payload)
     <> Llms.safe_json_parse (rt := rt_down) backtick_payload.
Proof.
  repeat split. discriminate.
Qed.

(** C7 fails on the generation output "null": the raw text is not empty,
    [json.loads] returns [None], and [extract_medical_json] returns the
    raw text with neither a parsed value nor an error; the tab then shows
    the could-not-parse warning with no reason. *)
Theorem extract_null_has_neither_value_nor_error :
  returns (Llms.extract_medical_json (rt := rt_null) (py "A 60-year-old male")) fresh
    (py "null", PNone, None)
  /\ Llms.safe_json_parse (rt := rt_null) (py "null") = Ok (PNone, None)
  /\ py "null" <> []
  /\ screen (snd (Llms.extract_json_button (rt := rt_null) (py "A 60-year-old male")
                    fresh))
     = [ st_markdown (py "### Model output (raw)");
         st_code (Some (py "null"));
         st_warning (py "Could not parse JSON. The model output may not be valid JSON.");
         st_code None ].
Proof.
  split; [|repeat split; discriminate].
  apply (one_call_returns _ _ _ fresh (py "null")
           (extract_medical_json_run (rt := rt_null) (py "A 60-year-old male"))).
  reflexivity.
Qed.

(** Apart from a JSON [null], exactly one of the parsed value and the
    error is present, whatever the raw text; an empty raw text gives an
    error whenever the decoder rejects the empty text. *)
Lemma safe_json_parse_exactly_one :
  forall (rt : Runtime) (text : pystr) (data : pyval) (err : option pystr),
    Llms.safe_json_parse text = Ok (data, err) ->
    json_loads (Llms.cleaned text) <> Ok PNone ->
    (is_not_None data = true /\ err = None)
    \/ (data = PNone /\ exists msg, err = Some msg).
Proof.
  intros rt text data err. unfold Llms.safe_json_parse.
  destruct (json_loads (Llms.cleaned text)) as [v|e]; intros [= <- <-] Hn.
  - left. split; [|reflexivity]. destruct v; try reflexivity. congruence.
  - right. split; [reflexivity|]. now exists (str_exn e).
Qed.

(** C9.  When the stripped text starts with a fence, the text handed to
    the decoder is the stripped text with the [```json] markers and then
    the [```] markers removed wherever they occur, stripped again; no
    fence marker is left in it.  A triple backtick inside a JSON string
    value is deleted with the fences: [{"a": "x```y"}] in a fence parses
    to the dict whose value is "xy". *)
Theorem safe_json_parse_removes_every_fence :
  forall (rt : Runtime) (text : pystr),
    startswith (strip text) Llms.fence = true ->
    Llms.cleaned text
    = strip (replace (replace (strip text) Llms.fence_json []) Llms.fence [])
    /\ contains Llms.fence (Llms.cleaned text) = false
    /\ contains Llms.fence_json (Llms.cleaned text) = false
    /\ Llms.safe_json_parse text
       = match json_loads
                 (strip (replace (replace (strip text) Llms.fence_json [])
                           Llms.fence [])) with
         | Ok data => Ok (data, None)
         | Raised e => Ok (PNone, Some (str_exn e))
         end.
Proof.
  intros rt text H.
  assert (Llms.cleaned text
          = strip (replace (replace (strip text) Llms.fence_json []) Llms.fence []))
    as E by (unfold Llms.cleaned; now rewrite H).
  pose proof (cleaned_no_fence text H) as Hn.
  repeat split; auto.
  - now apply no_fence_no_fence_json.
  - unfold Llms.safe_json_parse. now rewrite E.
Qed.

Lemma safe_json_parse_removes_every_fence_witness :
  startswith (strip (fenced (py "json") inner_backtick_payload)) Llms.fence = true
  /\ contains Llms.fence inner_backtick_payload = true
  /\ contains Llms.fence (Llms.cleaned (fenced (py "json") inner_backtick_payload))
     = false
  /\ Llms.safe_json_parse (rt := rt_down) (fenced (py "json") inner_backtick_payload)
     = Ok (PDict [(py "a", PStr (py "xy"))], None).
Proof.
  split; [reflexivity|]. split; [reflexivity|]. split.
  - exact (proj1 (proj2 (safe_json_parse_removes_every_fence rt_down
                           (fenced (py "json") inner_backtick_payload) eq_refl))).
  - reflexivity.
Defined.

(* ================================================================== *)
(** * Orchestration *)
(* ================================================================== *)

(** C8, as the code has it.  A blank input is rejected by the callers of
    the task-level operations, before any request is sent: [POST /chat]
    answers 400 "message is required" (also when the request carries no
    message at all), and each of the five buttons draws a warning; the
    world keeps the requests it had.  The task-level operations
    themselves do not look at their input: each sends its one request
    whatever the input is. *)
Theorem blank_input_rejected_by_callers :
  forall (rt : Runtime) (w : world),
    (forall s dbg,
        strip s = [] ->
        (forall body,
            carries body s ->
            Api.chat body w
            = (Ok (Api.Response 400 [(py "error", PStr (py "message is required"))]), w))
        /\ Llms.send_chatbot s dbg w
           = (Ok tt, World (calls w)
                       (screen w ++ [st_warning (py "Please type a message.")]))
        /\ Llms.classify_button s w
           = (Ok tt, World (calls w)
                       (screen w ++ [st_warning (py "Please enter an inquiry.")]))
        /\ Llms.extract_json_button s w
           = (Ok tt, World (calls w)
                       (screen w ++ [st_warning (py "Please enter notes.")]))
        /\ Llms.generate_email_button s w
           = (Ok tt, World (calls w)
                       (screen w ++ [st_warning (py "Please enter an email.")]))
        /\ Llms.summarize_button s w
           = (Ok tt, World (calls w)
                       (screen w ++ [st_warning (py "Please enter text.")])))
    /\ (forall body,
           lacks_message body ->
           Api.chat body w
           = (Ok (Api.Response 400 [(py "error", PStr (py "message is required"))]), w))
    /\ (forall f x,
           sent (classify_inquiry_of f x) w = [request_for (CLASSIFY_PROMPT_of f x)])
    /\ (forall x c,
           sent (Llms.bank_support_reply x c) w
           = [request_for (Llms.bank_support_reply_prompt x c)])
    /\ (forall x c,
           sent (Api.generate_support_reply x c) w
           = [request_for (Api.generate_support_reply_prompt x c)])
    /\ (forall x,
           sent (Llms.extract_medical_json x) w
           = [request_for (Llms.extract_medical_json_prompt x)])
    /\ (forall x,
           sent (Llms.generate_mortgage_email x) w
           = [request_for (Llms.generate_mortgage_email_prompt x)])
    /\ (forall x,
           sent (Llms.summarize_newsletter x) w
           = [request_for (Llms.summarize_newsletter_prompt x)]).
Proof.
  intros rt w. split; [|split; [intros body; apply chat_lacks_message|]].
  - intros s dbg H. split.
    + intros body Hb. rewrite (chat_carries body s w Hb). now rewrite H.
    + unfold Llms.send_chatbot, Llms.classify_button,
        Llms.extract_json_button, Llms.generate_email_button,
        Llms.summarize_button.
      rewrite H. repeat split; now apply draw_plain.
  - repeat split; intros; eapply one_call_sent; eauto with run.
Qed.

Lemma blank_input_rejected_by_callers_witness :
  strip (py "   ") = []
  /\ Api.chat (rt := rt_plain) (PDict [(py "message", PStr (py "   "))]) fresh
     = (Ok (Api.Response 400 [(py "error", PStr (py "message is required"))]), fresh)
  /\ Llms.classify_button (rt := rt_plain) (py "   ") fresh
     = (Ok tt, World [] [st_warning (py "Please enter an inquiry.")]).
Proof.
  split; [reflexivity|].
  pose proof (proj1 (blank_input_rejected_by_callers rt_plain fresh) (py "   ") false
                eq_refl) as H.
  split; [|exact (proj1 (proj2 (proj2 H)))].
  exact (proj1 H _ (ex_intro _ [(py "message", PStr (py "   "))]
                      (conj eq_refl eq_refl))).
Defined.

(** C8 as stated fails: called with the empty string, [classify_inquiry]
    sends its request to the generation service and returns a category;
    no validation error is produced. *)
Lemma classify_empty_inquiry_calls_service :
  strip [] = []
  /\ returns (Llms.classify_inquiry (rt := rt_plain) []) fresh (py "customer service")
  /\ sent (Llms.classify_inquiry (rt := rt_plain) []) fresh
     = [request_for (Llms.CLASSIFY_PROMPT [])]
  /\ length (calls (snd (Llms.classify_inquiry (rt := rt_plain) [] fresh))) = 1
  /\ returns (Llms.summarize_newsletter (rt := rt_plain) (py "  ")) fresh
       (py "customer service")
  /\ length (calls (snd (Llms.summarize_newsletter (rt := rt_plain) (py "  ") fresh)))
     = 1.
Proof.
  repeat split.
Qed.

(** C10.  The text a task-level operation returns has no leading and no
    trailing whitespace: the category of [classify_inquiry] (both files),
    the replies of [bank_support_reply] and [generate_support_reply], the
    raw text of [extract_medical_json], the reply of
    [generate_mortgage_email] and the report of [summarize_newsletter]. *)
Theorem task_results_are_trimmed :
  forall (rt : Runtime) (w : world),
    (forall f inquiry c,
        returns (classify_inquiry_of f inquiry) w c -> trimmed c = true)
    /\ (forall inquiry category reply,
           returns (Llms.bank_support_reply inquiry category) w reply ->
           trimmed reply = true)
    /\ (forall inquiry category reply,
           returns (Api.generate_support_reply inquiry category) w reply ->
           trimmed reply = true)
    /\ (forall notes raw data err,
           returns (Llms.extract_medical_json notes) w (raw, data, err) ->
           trimmed raw = true)
    /\ (forall email_text reply,
           returns (Llms.generate_mortgage_email email_text) w reply ->
           trimmed reply = true)
    /\ (forall newsletter report,
           returns (Llms.summarize_newsletter newsletter) w report ->
           trimmed report = true).
Proof.
  intros rt w. repeat split.
  - intros f inquiry c R.
    destruct (one_call_inv _ _ _ w c (classify_run f inquiry) R) as (text & _ & ->).
    apply allowed_trimmed, first_allowed_in_allowed.
  - intros inquiry category reply R.
    destruct (one_call_inv _ _ _ w reply (bank_support_reply_run inquiry category) R)
      as (text & _ & ->).
    apply strip_trimmed.
  - intros inquiry category reply R.
    destruct (one_call_inv _ _ _ w reply (generate_support_reply_run inquiry category) R)
      as (text & _ & ->).
    apply strip_trimmed.
  - intros notes raw data err R.
    destruct (one_call_inv _ _ _ w _ (extract_medical_json_run notes) R)
      as (text & _ & E).
    injection E as -> _ _. apply strip_trimmed.
  - intros email_text reply R.
    destruct (one_call_inv _ _ _ w reply (generate_mortgage_email_run email_text) R)
      as (text & _ & ->).
    apply strip_trimmed.
  - intros newsletter report R.
    destruct (one_call_inv _ _ _ w report (summarize_newsletter_run newsletter) R)
      as (text & _ & ->).
    apply strip_trimmed.
Qed.

Lemma task_results_are_trimmed_witness :
  returns (Llms.bank_support_reply (rt := rt_noisy) (py "Where is my card?")
             (py "card arrival")) fresh (py "Category:  CARD Arrival (delivery)")
  /\ trimmed (py "Category:  CARD Arrival (delivery)") = true.
Proof.
  assert (returns (Llms.bank_support_reply (rt := rt_noisy) (py "Where is my card?")
                     (py "card arrival"))
            fresh (py "Category:  CARD Arrival (delivery)")) as R by reflexivity.
  split; [exact R|].
  exact (proj1 (proj2 (task_results_are_trimmed rt_noisy fresh)) _ _ _ R).
Defined.

(* ================================================================== *)
(** * Concrete runs *)
(* ================================================================== *)

Example strip_run :
  strip (nl :: py "  Card Arrival " ++ [9%N; 160%N; 8195%N]) = py "Card Arrival".
Proof. reflexivity. Qed.

Example replace_run :
  replace (py "a```json```b````c") (py "```") [] = py "ajsonb`c"
  /\ replace (py "abc") [] (py "-") = py "-a-b-c-".
Proof. split; reflexivity. Qed.

Example contains_run :
  contains (py "change pin") (py "category: change pin.") = true
  /\ contains (py "change pin") (py "change  pin") = false.
Proof. split; reflexivity. Qed.

Example loads_run :
  Json.loads 1000 (py " [1, -0, 2.5e3, true, null, [], {}] ")
  = Ok (PList [ PInt 1; PInt 0; PFloat (FloatLit (py "2") (py ".5") (py "e3"));
                PBool true; PNone; PList []; PDict [] ]).
Proof. reflexivity. Qed.

Example loads_duplicate_key :
  Json.loads 1000
    (py "{" ++ dq ++ py "a" ++ dq ++ py ": 1, " ++ dq ++ py "b" ++ dq ++ py ": 2, "
        ++ dq ++ py "a" ++ dq ++ py ": 3}")
  = Ok (PDict [(py "a", PInt 3); (py "b", PInt 2)]).
Proof. reflexivity. Qed.

Example loads_errors :
  map (fun s => match Json.loads 1000 s with Ok _ => [] | Raised e => str_exn e end)
    [ []; py "[1,]"; py "{"; py "[1 2]"; py "1 1"; py "[" ++ [nl] ++ py " x]" ]
  = [ py "Expecting value: line 1 column 1 (char 0)";
      py "Expecting value: line 1 column 4 (char 3)";
      py "Expecting property name enclosed in double quotes: line 1 column 2 (char 1)";
      py "Expecting ',' delimiter: line 1 column 4 (char 3)";
      py "Extra data: line 1 column 3 (char 2)";
      py "Expecting value: line 2 column 2 (char 3)" ].
Proof. reflexivity. Qed.

Example loads_too_deep :
  Json.loads 2 (py "[[[1]]]")
  = Raised (RecursionError
              (py "maximum recursion depth exceeded while decoding a JSON array from a unicode string")).
Proof. reflexivity. Qed.

Example encode_run :
  encode_utf8 [233%N; 8364%N; 128512%N]
  = Ok [195; 169; 226; 130; 172; 240; 159; 152; 128]%N
  /\ match encode_utf8 [97%N; 55296%N] with
     | Raised e => str_exn e
     | Ok _ => []
     end
     = py "'utf-8' codec can't encode character '\ud800' in position 1: surrogates not allowed".
Proof. split; reflexivity. Qed.

(** The end-to-end scenario: the inquiry is classified as "card arrival"
    and the reply is not empty; two requests are sent. *)
Example chat_scenario :
  Api.chat (rt := rt_scenario)
    (PDict [(py "message", PStr (py "My card still hasn't arrived"))]) fresh
  = (Ok (Api.Response 200
           [ (py "message", PStr (py "My card still hasn't arrived"));
             (py "category", PStr (py "card arrival"));
             (py "reply", PStr (py "We're sorry for the delay...")) ]),
     World [ request_for (Api.CLASSIFY_PROMPT (py "My card still hasn't arrived"));
             request_for (Api.generate_support_reply_prompt
                            (py "My card still hasn't arrived") (py "card arrival")) ]
           []).
Proof. reflexivity. Qed.

(** When the generation service fails, the chatbot tab draws the error
    and its detail, and nothing else. *)
Example send_chatbot_service_down :
  Llms.send_chatbot (rt := rt_down) (py "Where is my card?") false fresh
  = (Ok tt,
     World [ request_for (Llms.CLASSIFY_PROMPT (py "Where is my card?")) ]
           [ st_error (py "Error calling Mistral.");
             st_code (Some (py "service unavailable")) ]).
Proof. reflexivity. Qed.

(** A report with a lone surrogate: Streamlit raises on it, the report
    is not drawn and no download is offered; the except block draws the
    error box and the text of Streamlit's exception. *)
Example summarize_surrogate_report :
  exists detail,
    Llms.summarize_button (rt := rt_surrogate) (py "Mistral AI unveiled new models.") fresh
    = (Ok tt,
       World [ request_for (Llms.summarize_newsletter_prompt
                              (py "Mistral AI unveiled new models.")) ]
             [ st_markdown (py "### Output report (Markdown)");
               error_box;
               st_code (Some detail) ]).
Proof. eexists. reflexivity. Qed.

(** An exception whose text has a lone surrogate: [st.code(str(e))] of
    the except block raises, and the handler lets that exception
    through with the error box drawn. *)
Example classify_button_raises :
  exists e,
    Llms.classify_button
      (rt := runtime_declared (fun _ _ => Raised (Exception [55357%N])))
      (py "Where is my card?") fresh
    = (Raised e,
       World [ request_for (Llms.CLASSIFY_PROMPT (py "Where is my card?")) ]
             [ error_box ]).
Proof. eexists. reflexivity. Qed.

(* ================================================================== *)
(** * Beyond the claims: blank input *)
(* ================================================================== *)

Lemma strip_empty_blank (s : pystr) : strip s = [] <-> blank s = true.
Proof.
  unfold strip, rstrip, lstrip, blank. split.
  - intros H.
    destruct (dropwhile_suffix isspace s) as (pre & Hs & Hpre).
    pose proof (dropwhile_head isspace s) as Hc.
    destruct (dropwhile isspace s) as [|c t].
    + rewrite app_nil_r in Hs. now rewrite Hs.
    + exfalso. apply (f_equal (@rev _)) in H. rewrite rev_involutive in H.
      cbn [rev] in H.
      rewrite (dropwhile_keeps_last isspace (rev t) c Hc) in H.
      destruct (dropwhile isspace (rev t)); discriminate.
  - intros H. rewrite (dropwhile_all isspace s H). reflexivity.
Qed.

Lemma strip_nonempty_not_blank (s : pystr) :
  blank s = false -> exists c t, strip s = c :: t.
Proof.
  intros H. destruct (strip s) as [|c t] eqn:E.
  - apply strip_empty_blank in E. congruence.
  - now exists c, t.
Qed.

Lemma strip_trailing_space (s : pystr) (b : codepoint) :
  isspace b = true -> strip (s ++ [b]) = strip s.
Proof.
  intros Hb. unfold strip, lstrip, rstrip.
  destruct (dropwhile_suffix isspace s) as (pre & Hs & Hpre).
  pose proof (dropwhile_head isspace s) as Hc.
  destruct (dropwhile isspace s) as [|c t] eqn:E.
  - rewrite app_nil_r in Hs. rewrite <- Hs in Hpre.
    rewrite (dropwhile_all isspace (s ++ [b])); [reflexivity|].
    rewrite forallb_app, Hpre. simpl. now rewrite Hb.
  - assert (s ++ [b] = pre ++ (c :: t ++ [b])) as ->
      by (rewrite Hs at 1; now rewrite <- app_assoc).
    rewrite dropwhile_skip by assumption.
    change (c :: t ++ [b]) with ((c :: t) ++ [b]).
    rewrite rev_app_distr. cbn [rev app dropwhile]. now rewrite Hb.
Qed.

(* ================================================================== *)
(** * Beyond the claims: sequencing *)
(* ================================================================== *)

Section Sequencing.
Context {rt : Runtime}.

Lemma bind_one_call {A B} (m : M A) (prompt : pystr) (post : pystr -> A)
  (k : A -> M B) (w : world) :
  one_call m prompt post ->
  bind m k w
  = match chat_complete (calls w) (request_for prompt) with
    | Ok text => k (post text) (after w prompt)
    | Raised e => (Raised e, after w prompt)
    end.
Proof.
  intros H. unfold bind. rewrite H.
  now destruct (chat_complete (calls w) (request_for prompt)).
Qed.

Lemma api_classify_run (inquiry : pystr) :
  one_call (Api.classify_inquiry inquiry) (Api.CLASSIFY_PROMPT inquiry) category_of.
Proof. exact (classify_run api_py inquiry). Qed.

Lemma llms_classify_run (inquiry : pystr) :
  one_call (Llms.classify_inquiry inquiry) (Llms.CLASSIFY_PROMPT inquiry) category_of.
Proof. exact (classify_run llms_py inquiry). Qed.

Lemma category_of_allowed (text : pystr) : In (category_of text) allowed.
Proof. apply first_allowed_in_allowed. Qed.

End Sequencing.

(* ================================================================== *)
(** * Beyond the claims: the chat endpoint *)
(* ================================================================== *)

Section ChatEndpoint.
Context {rt : Runtime}.

Lemma chat_nonblank (body : pyval) (message : pystr) (w : world) :
  carries body message ->
  blank message = false ->
  Api.chat body w
  = bind (Api.classify_inquiry (strip message))
      (fun category =>
         bind (Api.generate_support_reply (strip message) category)
           (fun reply =>
              ret (Api.Response 200
                     [ (py "message", PStr (strip message));
                       (py "category", PStr category);
                       (py "reply", PStr reply) ]))) w.
Proof.
  intros Hc H. destruct (strip_nonempty_not_blank message H) as (c & t & E).
  rewrite (chat_carries body message w Hc). now rewrite E.
Qed.

(** Every request body falls in one of four classes. *)
Lemma body_cases (body : pyval) :
  lacks_message body
  \/ (exists s, carries body s)
  \/ (truthy body = true /\ forall d, body <> PDict d)
  \/ (exists d, body = PDict d
                /\ truthy (dict_get d (py "message")) = true
                /\ forall s, dict_get d (py "message") <> PStr s).
Proof.
  assert (truthy body = true \/ truthy body = false) as [T|T]
    by (destruct (truthy body); auto); [|left; now left].
  assert (forall d, body = PDict d ->
            lacks_message body
            \/ (exists s, carries body s)
            \/ (truthy body = true /\ forall d, body <> PDict d)
            \/ (exists d, body = PDict d
                          /\ truthy (dict_get d (py "message")) = true
                          /\ forall s, dict_get d (py "message") <> PStr s)) as Hd.
  { intros d ->.
    destruct (truthy (dict_get d (py "message"))) eqn:F;
      [|left; right; now exists d].
    destruct (dict_get d (py "message")) as [| | | |s| |] eqn:E;
      try (right; right; right; exists d; rewrite E;
           repeat split; [exact F | intros s'; discriminate]).
    right; left. exists s, d. now split. }
  destruct body; try (right; right; left; split; [exact T | intros d' E; discriminate E]).
  apply (Hd items eq_refl).
Qed.

Lemma chat_no_get (body : pyval) (w : world) :
  truthy body = true -> (forall d, body <> PDict d) ->
  Api.chat body w = (Raised (no_attribute body (py "get")), w).
Proof.
  intros T Hn. unfold Api.chat. rewrite T. cbv zeta.
  destruct body; try reflexivity. now destruct (Hn items).
Qed.

Lemma chat_no_strip (d : list (pystr * pyval)) (w : world) :
  truthy (dict_get d (py "message")) = true ->
  (forall s, dict_get d (py "message") <> PStr s) ->
  Api.chat (PDict d) w
  = (Raised (no_attribute (dict_get d (py "message")) (py "strip")), w).
Proof.
  intros T Hn. unfold Api.chat.
  destruct d as [|p d]; [discriminate|].
  cbn [truthy]. cbv zeta. rewrite T.
  destruct (dict_get (p :: d) (py "message")); try reflexivity.
  now destruct (Hn s).
Qed.

Lemma chat_nonblank_outcome (body : pyval) (s : pystr) (w : world) :
  carries body s -> blank s = false ->
  forall r w', Api.chat body w = (Ok r, w') ->
               Api.status r = 200 /\ length (calls w') = length (calls w) + 2.
Proof.
  intros Hc Hb r w'. rewrite (chat_nonblank body s w Hc Hb).
  rewrite (bind_one_call _ _ _ _ w (api_classify_run (strip s))).
  destruct (chat_complete (calls w) _) as [text1|e1]; [|discriminate].
  rewrite (bind_one_call _ _ _ _ _
             (generate_support_reply_run (strip s) (category_of text1))).
  destruct (chat_complete (calls (after w _)) _) as [text2|e2]; [|discriminate].
  unfold ret. intros [= <- <-]. split; [reflexivity|].
  unfold after. cbn [calls]. rewrite !length_app. cbn [length]. lia.
Qed.

Lemma carries_unique (body : pyval) (s s' : pystr) :
  carries body s -> carries body s' -> s = s'.
Proof. intros (d & -> & H) (d' & [= <-] & H'). congruence. Qed.

End ChatEndpoint.

(** X1.  On a request whose message is a string that is not blank, when
    the generation service answers both requests, [POST /chat] sends
    exactly two requests: the classification prompt of the stripped
    message, then the reply prompt built from the stripped message and the
    resolved category.  It answers 200 with the stripped message, a
    category of the [allowed] set and the stripped reply. *)
Theorem chat_classifies_then_replies :
  forall (rt : Runtime) (body : pyval) (message : pystr) (w : world)
         (text1 text2 : pystr),
    carries body message ->
    blank message = false ->
    answers w (Api.CLASSIFY_PROMPT (strip message)) text1 ->
    answers (after w (Api.CLASSIFY_PROMPT (strip message)))
      (Api.generate_support_reply_prompt (strip message) (category_of text1)) text2 ->
    Api.chat body w
    = (Ok (Api.Response 200
             [ (py "message", PStr (strip message));
               (py "category", PStr (category_of text1));
               (py "reply", PStr (strip text2)) ]),
       after (after w (Api.CLASSIFY_PROMPT (strip message)))
         (Api.generate_support_reply_prompt (strip message) (category_of text1)))
    /\ In (category_of text1) allowed
    /\ trimmed (strip message) = true
    /\ trimmed (strip text2) = true.
Proof.
  intros rt body message w text1 text2 Hc Hb H1 H2. unfold answers in H1, H2.
  repeat split;
    try apply category_of_allowed; try apply strip_trimmed.
  rewrite (chat_nonblank body message w Hc Hb).
  rewrite (bind_one_call _ _ _ _ w (api_classify_run (strip message))), H1.
  rewrite (bind_one_call _ _ _ _ _
             (generate_support_reply_run (strip message) (category_of text1))), H2.
  reflexivity.
Qed.

Lemma chat_classifies_then_replies_witness :
  carries (PDict [ (py "user", PInt 7);
                   (py "message", PStr (py "  My card still hasn't arrived ")) ])
    (py "  My card still hasn't arrived ")
  /\ blank (py "  My card still hasn't arrived ") = false
  /\ Api.chat (rt := rt_scenario)
       (PDict [ (py "user", PInt 7);
                (py "message", PStr (py "  My card still hasn't arrived ")) ]) fresh
     = (Ok (Api.Response 200
              [ (py "message", PStr (py "My card still hasn't arrived"));
                (py "category", PStr (py "card arrival"));
                (py "reply", PStr (py "We're sorry for the delay...")) ]),
        World [ request_for (Api.CLASSIFY_PROMPT (py "My card still hasn't arrived"));
                request_for (Api.generate_support_reply_prompt
                               (py "My card still hasn't arrived") (py "card arrival")) ]
              []).
Proof.
  assert (carries (PDict [ (py "user", PInt 7);
                           (py "message", PStr (py "  My card still hasn't arrived ")) ])
            (py "  My card still hasn't arrived ")) as Hc
    by (eexists; split; reflexivity).
  split; [exact Hc|]. split; [reflexivity|].
  exact (proj1 (chat_classifies_then_replies rt_scenario _
                  (py "  My card still hasn't arrived ") fresh
                  (py "Category: card arrival") (py "We're sorry for the delay...")
                  Hc eq_refl eq_refl eq_refl)).
Defined.

(** X2.  [POST /chat] lets a generation failure through.  When the
    classification request fails, the exception leaves the handler after
    that one request and no reply is requested; when the reply request
    fails, the exception leaves the handler after the two requests.  In
    neither case is a response produced. *)
Theorem chat_propagates_generation_failure :
  forall (rt : Runtime) (body : pyval) (message : pystr) (w : world) (e : pyexn),
    carries body message ->
    blank message = false ->
    (fails w (Api.CLASSIFY_PROMPT (strip message)) e ->
     Api.chat body w
     = (Raised e, after w (Api.CLASSIFY_PROMPT (strip message))))
    /\ (forall text1,
           answers w (Api.CLASSIFY_PROMPT (strip message)) text1 ->
           fails (after w (Api.CLASSIFY_PROMPT (strip message)))
             (Api.generate_support_reply_prompt (strip message) (category_of text1)) e ->
           Api.chat body w
           = (Raised e,
              after (after w (Api.CLASSIFY_PROMPT (strip message)))
                (Api.generate_support_reply_prompt (strip message)
                   (category_of text1)))).
Proof.
  intros rt body message w e Hc Hb. unfold fails, answers. split.
  - intros H1. rewrite (chat_nonblank body message w Hc Hb).
    now rewrite (bind_one_call _ _ _ _ w (api_classify_run (strip message))), H1.
  - intros text1 H1 H2. rewrite (chat_nonblank body message w Hc Hb).
    rewrite (bind_one_call _ _ _ _ w (api_classify_run (strip message))), H1.
    now rewrite (bind_one_call _ _ _ _ _
                   (generate_support_reply_run (strip message) (category_of text1))), H2.
Qed.

Lemma chat_propagates_generation_failure_witness :
  carries (PDict [(py "message", PStr (py "Where is my card?"))]) (py "Where is my card?")
  /\ blank (py "Where is my card?") = false
  /\ fails (rt := rt_down) fresh (Api.CLASSIFY_PROMPT (strip (py "Where is my card?")))
       (Exception (py "service unavailable"))
  /\ Api.chat (rt := rt_down) (PDict [(py "message", PStr (py "Where is my card?"))]) fresh
     = (Raised (Exception (py "service unavailable")),
        World [request_for (Api.CLASSIFY_PROMPT (py "Where is my card?"))] []).
Proof.
  assert (carries (PDict [(py "message", PStr (py "Where is my card?"))])
            (py "Where is my card?")) as Hc
    by (eexists; split; reflexivity).
  split; [exact Hc|]. split; [reflexivity|]. split; [reflexivity|].
  exact (proj1 (chat_propagates_generation_failure rt_down _ (py "Where is my card?")
                  fresh (Exception (py "service unavailable")) Hc eq_refl) eq_refl).
Defined.

(** X3.  What [POST /chat] does with the request body, for every JSON
    value.  It answers 400, with no request sent, exactly when the request
    has no usable message: no body or one that counts as false, a JSON
    object without a [message] or with one that counts as false ([null],
    [false], zero, an empty string, array or object), or a [message] that
    is a blank string.  A body that counts as true and is not an object,
    and a [message] that counts as true and is not a string, make the
    handler raise [AttributeError] with no request sent.  A [message] that
    is a string and not blank gets a 200 response, when it gets one, after
    two requests. *)
Theorem chat_400_iff_no_usable_message :
  forall (rt : Runtime) (body : pyval) (w : world),
    (Api.chat body w = (Ok message_required, w)
     <-> (lacks_message body \/ exists s, carries body s /\ blank s = true))
    /\ (truthy body = true -> (forall d, body <> PDict d) ->
        Api.chat body w = (Raised (no_attribute body (py "get")), w))
    /\ (forall d,
           body = PDict d ->
           truthy (dict_get d (py "message")) = true ->
           (forall s, dict_get d (py "message") <> PStr s) ->
           Api.chat body w
           = (Raised (no_attribute (dict_get d (py "message")) (py "strip")), w))
    /\ (forall s,
           carries body s -> blank s = false ->
           forall r w', Api.chat body w = (Ok r, w') ->
                        Api.status r = 200
                        /\ length (calls w') = length (calls w) + 2).
Proof.
  intros rt body w.
  split; [|split; [apply chat_no_get|split;
                   [intros d ->; apply chat_no_strip
                   |intros s; apply chat_nonblank_outcome]]].
  split.
  - intros H.
    destruct (body_cases body) as [L|[(s & Hc)|[(T & Hn)|(d & -> & T & Hn)]]].
    + now left.
    + right. exists s. split; [exact Hc|].
      destruct (blank s) eqn:Hb; [reflexivity|].
      destruct (chat_nonblank_outcome body s w Hc Hb _ _ H) as [Hs _].
      discriminate.
    + rewrite (chat_no_get body w T Hn) in H. discriminate.
    + rewrite (chat_no_strip d w T Hn) in H. discriminate.
  - intros [L|(s & Hc & Hb)]; [now apply chat_lacks_message|].
    rewrite (chat_carries body s w Hc).
    apply strip_empty_blank in Hb. now rewrite Hb.
Qed.

Lemma chat_400_iff_no_usable_message_witness :
  lacks_message (PDict [(py "message", PInt 0)])
  /\ Api.chat (rt := rt_scenario) (PDict [(py "message", PInt 0)]) fresh
     = (Ok message_required, fresh)
  /\ truthy (PList [PStr (py "hello")]) = true
  /\ Api.chat (rt := rt_scenario) (PList [PStr (py "hello")]) fresh
     = (Raised (AttributeError (py "'list' object has no attribute 'get'")), fresh).
Proof.
  assert (lacks_message (PDict [(py "message", PInt 0)])) as L
    by (right; eexists; split; reflexivity).
  split; [exact L|]. split.
  - exact (proj2 (proj1 (chat_400_iff_no_usable_message rt_scenario
                           (PDict [(py "message", PInt 0)]) fresh)) (or_introl L)).
  - split; [reflexivity|].
    exact (proj1 (proj2 (chat_400_iff_no_usable_message rt_scenario
                           (PList [PStr (py "hello")]) fresh))
             eq_refl ltac:(discriminate)).
Defined.

(* ================================================================== *)
(** * Beyond the claims: the five buttons *)
(* ================================================================== *)

Section Buttons.
Context {rt : Runtime}.

Lemma try_except_bind_one_call {A B} (m : M A) (prompt : pystr)
  (post : pystr -> A) (k : A -> M B) (h : pyexn -> M B) (w : world) :
  one_call m prompt post ->
  try_except (bind m k) h w
  = match chat_complete (calls w) (request_for prompt) with
    | Ok text => try_except (k (post text)) h (after w prompt)
    | Raised e => h e (after w prompt)
    end.
Proof.
  intros H. unfold try_except at 1. rewrite (bind_one_call m prompt post k w H).
  now destruct (chat_complete (calls w) (request_for prompt)).
Qed.

Lemma drawn_drawn (w : world) (a b : list widget) :
  drawn (drawn w a) b = drawn w (a ++ b).
Proof. unfold drawn. cbn [calls screen]. now rewrite app_assoc. Qed.

Lemma drawn_after (w : world) (prompt : pystr) (a : list widget) :
  calls (drawn (after w prompt) a) = calls w ++ [request_for prompt].
Proof. reflexivity. Qed.

(** The except block: the error box, then the text of the exception. *)
Lemma mistral_error_with_detail_run (e : pyexn) (w : world) :
  Llms.mistral_error_with_detail e w
  = match st_call (st_code (Some (str_exn e))) with
    | Ok _ => (Ok tt, drawn w [error_box; st_code (Some (str_exn e))])
    | Raised e' => (Raised e', drawn w [error_box])
    end.
Proof.
  unfold Llms.mistral_error_with_detail.
  rewrite bind_draw_plain by reflexivity. unfold draw.
  destruct (st_call (st_code (Some (str_exn e)))); [|reflexivity].
  unfold drawn. cbn [calls screen]. now rewrite <- app_assoc.
Qed.

Lemma mistral_error_with_detail_accepted (e : pyexn) (w : world) :
  accepted (st_code (Some (str_exn e))) ->
  Llms.mistral_error_with_detail e w
  = (Ok tt, drawn w [error_box; st_code (Some (str_exn e))]).
Proof. intros H. rewrite mistral_error_with_detail_run. now rewrite H. Qed.

Lemma detail_reported (e : pyexn) (w : world) :
  error_reported (Llms.mistral_error_with_detail e w) w e.
Proof.
  unfold error_reported, accepted, refused. rewrite mistral_error_with_detail_run.
  split; [intros -> | intros e' ->]; reflexivity.
Qed.

(** Every label of the [allowed] set can be drawn. *)
Lemma allowed_plain (c : pystr) : In c allowed -> plain (st_write c) = true.
Proof.
  assert (forallb (fun c => plain (st_write c)) allowed = true) as H
    by (vm_compute; reflexivity).
  rewrite forallb_forall in H. exact (H c).
Qed.

Lemma category_accepted (text : pystr) : accepted (st_write (category_of text)).
Proof. apply st_call_plain, allowed_plain, category_of_allowed. Qed.



(** ** Counting requests *)









End Buttons.


Section ButtonBounds.
Context {rt : Runtime}.






End ButtonBounds.


Section ButtonRuns.
Context {rt : Runtime}.

Lemma nonblank_cons (s : pystr) :
  blank s = false -> exists c t, strip s = c :: t.
Proof. apply strip_nonempty_not_blank. Qed.

(** The try block of a handler whose first request fails. *)
Lemma first_request_fails {A} (m : M A) (prompt : pystr) (post : pystr -> A)
  (k : A -> M unit) (w : world) (e : pyexn) :
  one_call m prompt post ->
  fails w prompt e ->
  error_reported (try_except (bind m k) Llms.mistral_error_with_detail w)
    (after w prompt) e.
Proof.
  intros Hm Hf. unfold fails in Hf.
  rewrite (try_except_bind_one_call m prompt post k _ w Hm), Hf.
  apply detail_reported.
Qed.

(** The try block of a handler whose first request is answered. *)
Lemma first_request_answered {A} (m : M A) (prompt : pystr) (post : pystr -> A)
  (k : A -> M unit) (w : world) (text : pystr) :
  one_call m prompt post ->
  answers w prompt text ->
  try_except (bind m k) Llms.mistral_error_with_detail w
  = try_except (k (post text)) Llms.mistral_error_with_detail (after w prompt).
Proof.
  intros Hm Ha. unfold answers in Ha.
  now rewrite (try_except_bind_one_call m prompt post k _ w Hm), Ha.
Qed.

(** A try block that raises [e] in world [w']. *)
Lemma try_raised (body : M unit) (w w' : world) (e : pyexn) :
  body w = (Raised e, w') ->
  error_reported (try_except body Llms.mistral_error_with_detail w) w' e.
Proof. intros H. unfold try_except. rewrite H. apply detail_reported. Qed.

Lemma try_returned (body : M unit) (w w' : world) :
  body w = (Ok tt, w') ->
  try_except body Llms.mistral_error_with_detail w = (Ok tt, w').
Proof. intros H. unfold try_except. now rewrite H. Qed.

End ButtonRuns.

(** Steps through the Streamlit calls of a try block: a call on fixed
    text is accepted by [st_call_plain], any other by an assumption. *)
Ltac draws :=
  repeat first
    [ rewrite drawn_drawn
    | rewrite bind_draw_plain by (vm_compute; reflexivity)
    | rewrite bind_draw_accepted by (assumption || apply category_accepted)
    | rewrite draw_plain by (vm_compute; reflexivity)
    | rewrite draw_accepted by (assumption || apply category_accepted) ];
  cbn [app].

(** X5.  When the generation service fails on the first request of a
    handler, the handler enters its except block with no widget drawn and
    no further request sent: it draws the error box and then the text of
    the exception, and when Streamlit raises on that text, the error box
    alone, and the exception of Streamlit leaves the handler.  The same
    holds when the chatbot button's classification succeeds and its reply
    request fails: the category that was resolved is not shown. *)
Theorem buttons_report_generation_failure :
  forall (rt : Runtime) (w : world) (s : pystr) (e : pyexn),
    blank s = false ->
    (forall dbg,
        fails w (Llms.CLASSIFY_PROMPT s) e ->
        error_reported (Llms.send_chatbot s dbg w)
          (after w (Llms.CLASSIFY_PROMPT s)) e)
    /\ (forall dbg text1,
           answers w (Llms.CLASSIFY_PROMPT s) text1 ->
           fails (after w (Llms.CLASSIFY_PROMPT s))
             (Llms.bank_support_reply_prompt s (category_of text1)) e ->
           error_reported (Llms.send_chatbot s dbg w)
             (after (after w (Llms.CLASSIFY_PROMPT s))
                (Llms.bank_support_reply_prompt s (category_of text1))) e)
    /\ (fails w (Llms.CLASSIFY_PROMPT s) e ->
        error_reported (Llms.classify_button s w)
          (after w (Llms.CLASSIFY_PROMPT s)) e)
    /\ (fails w (Llms.extract_medical_json_prompt s) e ->
        error_reported (Llms.extract_json_button s w)
          (after w (Llms.extract_medical_json_prompt s)) e)
    /\ (fails w (Llms.generate_mortgage_email_prompt s) e ->
        error_reported (Llms.generate_email_button s w)
          (after w (Llms.generate_mortgage_email_prompt s)) e)
    /\ (fails w (Llms.summarize_newsletter_prompt s) e ->
        error_reported (Llms.summarize_button s w)
          (after w (Llms.summarize_newsletter_prompt s)) e).
Proof.
  intros rt w s e Hb. destruct (nonblank_cons s Hb) as (c & t & E).
  unfold Llms.send_chatbot, Llms.classify_button, Llms.extract_json_button,
    Llms.generate_email_button, Llms.summarize_button.
  rewrite E. split; [|split; [|split; [|split; [|split]]]].
  - intros dbg. apply first_request_fails with (post := category_of).
    apply llms_classify_run.
  - intros dbg text1 Ha Hf.
    rewrite (first_request_answered _ _ category_of _ w text1
               (llms_classify_run s) Ha).
    eapply first_request_fails; [apply bank_support_reply_run | exact Hf].
  - eapply first_request_fails. apply llms_classify_run.
  - eapply first_request_fails. apply extract_medical_json_run.
  - eapply first_request_fails. apply generate_mortgage_email_run.
  - eapply first_request_fails. apply summarize_newsletter_run.
Qed.

Lemma buttons_report_generation_failure_witness :
  blank (py "Where is my card?") = false
  /\ answers (rt := rt_reply_down) fresh (Llms.CLASSIFY_PROMPT (py "Where is my card?"))
       (py "card arrival")
  /\ fails (rt := rt_reply_down)
       (after fresh (Llms.CLASSIFY_PROMPT (py "Where is my card?")))
       (Llms.bank_support_reply_prompt (py "Where is my card?") (py "card arrival"))
       (Exception (py "rate limit exceeded"))
  /\ accepted (rt := rt_reply_down) (st_code (Some (py "rate limit exceeded")))
  /\ Llms.send_chatbot (rt := rt_reply_down) (py "Where is my card?") true fresh
     = (Ok tt,
        World [ request_for (Llms.CLASSIFY_PROMPT (py "Where is my card?"));
                request_for (Llms.bank_support_reply_prompt (py "Where is my card?")
                               (py "card arrival")) ]
              [ st_error (py "Error calling Mistral.");
                st_code (Some (py "rate limit exceeded")) ]).
Proof.
  split; [reflexivity|]. split; [reflexivity|]. split; [reflexivity|].
  split; [reflexivity|].
  exact (proj1 (proj1 (proj2 (buttons_report_generation_failure rt_reply_down fresh
                                (py "Where is my card?")
                                (Exception (py "rate limit exceeded")) eq_refl))
                  true (py "card arrival") eq_refl eq_refl) eq_refl).
Defined.

(** X6.  When both requests of the chatbot button are answered, it
    draws, in this order: the success box, the category header, the
    resolved category, which is a label of the [allowed] set, and the
    reply header.  When Streamlit accepts the stripped reply, the reply
    follows, and with the debug box ticked the classification template;
    the handler returns.  When Streamlit raises on the reply, the handler
    enters its except block with those four widgets drawn and the reply
    not shown.  The reply prompt that was sent carries the same
    category. *)
Theorem send_chatbot_shows_category_and_reply :
  forall (rt : Runtime) (w : world) (user_msg : pystr) (dbg : bool)
         (text1 text2 : pystr),
    blank user_msg = false ->
    answers w (Llms.CLASSIFY_PROMPT user_msg) text1 ->
    answers (after w (Llms.CLASSIFY_PROMPT user_msg))
      (Llms.bank_support_reply_prompt user_msg (category_of text1)) text2 ->
    (accepted (st_write (strip text2)) ->
     Llms.send_chatbot user_msg dbg w
     = (Ok tt,
        drawn (after (after w (Llms.CLASSIFY_PROMPT user_msg))
                 (Llms.bank_support_reply_prompt user_msg (category_of text1)))
          ([ st_success (py "Done!");
             st_markdown (py "### Detected category");
             st_write (category_of text1);
             st_markdown (py "### Reply");
             st_write (strip text2) ]
           ++ if dbg
              then [ st_markdown (py "### Debug");
                     st_code (Some (Llms.CLASSIFY_PROMPT (py "{inquiry}"))) ]
              else [])))
    /\ (forall e,
           refused (st_write (strip text2)) e ->
           error_reported (Llms.send_chatbot user_msg dbg w)
             (drawn (after (after w (Llms.CLASSIFY_PROMPT user_msg))
                       (Llms.bank_support_reply_prompt user_msg (category_of text1)))
                [ st_success (py "Done!");
                  st_markdown (py "### Detected category");
                  st_write (category_of text1);
                  st_markdown (py "### Reply") ]) e)
    /\ In (category_of text1) allowed.
Proof.
  intros rt w user_msg dbg text1 text2 Hb H1 H2.
  destruct (nonblank_cons user_msg Hb) as (c & t & E).
  split; [|split]; [| |apply category_of_allowed].
  - intros Hw. unfold accepted in Hw. unfold Llms.send_chatbot. rewrite E.
    rewrite (first_request_answered _ _ category_of _ w text1
               (llms_classify_run user_msg) H1).
    apply try_returned.
    rewrite (bind_one_call _ _ strip _ _ (bank_support_reply_run user_msg _)).
    unfold answers in H2. rewrite H2.
    destruct dbg; draws; reflexivity.
  - intros e Hr. unfold refused in Hr. unfold Llms.send_chatbot. rewrite E.
    rewrite (first_request_answered _ _ category_of _ w text1
               (llms_classify_run user_msg) H1).
    apply try_raised.
    rewrite (bind_one_call _ _ strip _ _ (bank_support_reply_run user_msg _)).
    unfold answers in H2. rewrite H2.
    draws. rewrite (bind_draw_refused _ _ _ e Hr). reflexivity.
Qed.

Lemma send_chatbot_shows_category_and_reply_witness :
  blank (py "My card still hasn't arrived") = false
  /\ accepted (rt := rt_scenario) (st_write (py "We're sorry for the delay..."))
  /\ Llms.send_chatbot (rt := rt_scenario) (py "My card still hasn't arrived") false fresh
     = (Ok tt,
        World [ request_for (Llms.CLASSIFY_PROMPT (py "My card still hasn't arrived"));
                request_for (Llms.bank_support_reply_prompt
                               (py "My card still hasn't arrived") (py "card arrival")) ]
              [ st_success (py "Done!");
                st_markdown (py "### Detected category");
                st_write (py "card arrival");
                st_markdown (py "### Reply");
                st_write (py "We're sorry for the delay...") ]).
Proof.
  split; [reflexivity|]. split; [reflexivity|].
  exact (proj1 (send_chatbot_shows_category_and_reply rt_scenario fresh
                  (py "My card still hasn't arrived") false
                  (py "Category: card arrival") (py "We're sorry for the delay...")
                  eq_refl eq_refl eq_refl) eq_refl).
Defined.

(** X7.  When the extraction request is answered, the extract button
    draws the raw-output header and hands the stripped model output to
    [st.code].  When Streamlit accepts it, the handler goes on: with a
    parsed value other than [None] it draws the parsed-JSON header and
    hands the value to [st.json]; otherwise it draws the could-not-parse
    warning and hands the error component to [st.code], which is the
    decoder's message when decoding failed and [None] when the output
    decoded to [null].  The handler returns when that last call is
    accepted.  Whenever Streamlit raises on the model output or on the
    last call, the handler enters its except block with what was drawn
    so far. *)
Theorem extract_json_button_shows_value_or_warning :
  forall (rt : Runtime) (w : world) (notes text : pystr) (data : pyval)
         (err : option pystr),
    blank notes = false ->
    answers w (Llms.extract_medical_json_prompt notes) text ->
    Llms.safe_json_parse (strip text) = Ok (data, err) ->
    (forall e,
        refused (st_code (Some (strip text))) e ->
        error_reported (Llms.extract_json_button notes w)
          (drawn (after w (Llms.extract_medical_json_prompt notes))
             [ st_markdown (py "### Model output (raw)") ]) e)
    /\ (accepted (st_code (Some (strip text))) ->
        (accepted (if is_not_None data then st_json data else st_code err) ->
         Llms.extract_json_button notes w
         = (Ok tt,
            drawn (after w (Llms.extract_medical_json_prompt notes))
              ([ st_markdown (py "### Model output (raw)");
                 st_code (Some (strip text)) ]
               ++ if is_not_None data
                  then [ st_markdown (py "### Parsed JSON"); st_json data ]
                  else [ st_warning
                           (py "Could not parse JSON. The model output may not be valid JSON.");
                         st_code err ])))
        /\ (forall e,
               refused (if is_not_None data then st_json data else st_code err) e ->
               error_reported (Llms.extract_json_button notes w)
                 (drawn (after w (Llms.extract_medical_json_prompt notes))
                    [ st_markdown (py "### Model output (raw)");
                      st_code (Some (strip text));
                      if is_not_None data
                      then st_markdown (py "### Parsed JSON")
                      else st_warning
                             (py "Could not parse JSON. The model output may not be valid JSON.") ])
                 e)).
Proof.
  intros rt w notes text data err Hb Ha Hp.
  destruct (nonblank_cons notes Hb) as (c & t & E).
  rewrite safe_json_parse_total in Hp. injection Hp as Hp.
  unfold Llms.extract_json_button. rewrite E.
  rewrite (first_request_answered _ _ _ _ w text
             (extract_medical_json_run notes) Ha).
  rewrite Hp. cbn [fst snd]. unfold accepted, refused.
  split; [intros e Hr | intros Hraw; split; [intros Hlast | intros e Hr]].
  - apply try_raised. draws. rewrite (bind_draw_refused _ _ _ e Hr). reflexivity.
  - apply try_returned. destruct (is_not_None data); draws; reflexivity.
  - apply try_raised.
    destruct (is_not_None data); draws; rewrite (draw_refused _ _ e Hr);
      reflexivity.
Qed.

Lemma extract_json_button_shows_value_or_warning_witness :
  blank (py "A 30-year-old patient") = false
  /\ answers (rt := rt_fenced_age) fresh
       (Llms.extract_medical_json_prompt (py "A 30-year-old patient"))
       (fenced (py "json") age_payload)
  /\ Llms.safe_json_parse (rt := rt_fenced_age) (strip (fenced (py "json") age_payload))
     = Ok (PDict [(py "age", PInt 30)], None)
  /\ accepted (rt := rt_fenced_age) (st_code (Some (fenced (py "json") age_payload)))
  /\ accepted (rt := rt_fenced_age) (st_json (PDict [(py "age", PInt 30)]))
  /\ Llms.extract_json_button (rt := rt_fenced_age) (py "A 30-year-old patient") fresh
     = (Ok tt,
        World [request_for (Llms.extract_medical_json_prompt (py "A 30-year-old patient"))]
              [ st_markdown (py "### Model output (raw)");
                st_code (Some (fenced (py "json") age_payload));
                st_markdown (py "### Parsed JSON");
                st_json (PDict [(py "age", PInt 30)]) ]).
Proof.
  split; [reflexivity|]. split; [reflexivity|]. split; [reflexivity|].
  split; [reflexivity|]. split; [reflexivity|].
  exact (proj1 (proj2 (extract_json_button_shows_value_or_warning rt_fenced_age fresh
                         (py "A 30-year-old patient") (fenced (py "json") age_payload)
                         (PDict [(py "age", PInt 30)]) None eq_refl eq_refl eq_refl)
                  eq_refl) eq_refl).
Defined.

Lemma encode_utf8_from_ok (object : pystr) (s : pystr) :
  forall i, existsb is_surrogate s = false ->
            exists data, encode_utf8_from object i s = Ok data.
Proof.
  induction s as [|c t IH]; intros i H; cbn [encode_utf8_from].
  - now exists [].
  - cbn [existsb] in H. apply orb_false_iff in H as [Hc Ht].
    rewrite Hc. destruct (IH (S i) Ht) as [bs ->]. eauto.
Qed.

Lemma encodable_encodes (s : pystr) :
  encodable s = true -> exists data, encode_utf8 s = Ok data.
Proof.
  unfold encodable, encode_utf8. intros H. apply negb_true_iff in H.
  now apply encode_utf8_from_ok.
Qed.

(** X8.  When the summary request is answered, the summarize button
    draws the report header and hands the stripped report to
    [st.markdown].  When the report has no surrogate code point, the
    report is drawn and then offered for download as its UTF-8 bytes,
    and the handler returns.  When Streamlit raises on the report, the
    handler enters its except block with the header alone drawn: the
    report is not shown and no download is offered, although the request
    succeeded, and the except block draws the calling-Mistral error box
    and the text of Streamlit's exception. *)
Theorem summarize_button_download_or_error :
  forall (rt : Runtime) (w : world) (newsletter text : pystr),
    blank newsletter = false ->
    answers w (Llms.summarize_newsletter_prompt newsletter) text ->
    (encodable (strip text) = true ->
     exists data,
       encode_utf8 (strip text) = Ok data
       /\ Llms.summarize_button newsletter w
          = (Ok tt,
             drawn (after w (Llms.summarize_newsletter_prompt newsletter))
               [ st_markdown (py "### Output report (Markdown)");
                 st_markdown (strip text);
                 st_download_button (py "Download report as .md") data
                   (py "summary_report.md") (py "text/markdown") ]))
    /\ (forall e,
           refused (st_markdown (strip text)) e ->
           error_reported (Llms.summarize_button newsletter w)
             (drawn (after w (Llms.summarize_newsletter_prompt newsletter))
                [ st_markdown (py "### Output report (Markdown)") ]) e).
Proof.
  intros rt w newsletter text Hb Ha.
  destruct (nonblank_cons newsletter Hb) as (c & t & E).
  unfold Llms.summarize_button. rewrite E.
  rewrite (first_request_answered _ _ _ _ w text
             (summarize_newsletter_run newsletter) Ha).
  split.
  - intros Hs. destruct (encodable_encodes _ Hs) as [data Hd].
    exists data. split; [exact Hd|].
    apply try_returned. draws.
    assert (plain (st_markdown (strip text)) = true) as Hplain
      by (cbn [plain widget_strings forallb]; now rewrite Hs).
    rewrite (bind_draw_plain _ _ _ Hplain).
    unfold bind at 1, lift. rewrite Hd.
    rewrite draw_plain by reflexivity. draws. reflexivity.
  - intros e Hr. unfold refused in Hr.
    apply try_raised. draws. rewrite (bind_draw_refused _ _ _ e Hr). reflexivity.
Qed.

Lemma summarize_button_download_or_error_witness :
  blank (py "Mistral AI unveiled new models.") = false
  /\ answers (rt := rt_report) fresh
       (Llms.summarize_newsletter_prompt (py "Mistral AI unveiled new models."))
       (py "# Report")
  /\ encodable (strip (py "# Report")) = true
  /\ exists data,
       encode_utf8 (strip (py "# Report")) = Ok data
       /\ Llms.summarize_button (rt := rt_report) (py "Mistral AI unveiled new models.")
            fresh
          = (Ok tt,
             drawn (after fresh (Llms.summarize_newsletter_prompt
                                   (py "Mistral AI unveiled new models.")))
               [ st_markdown (py "### Output report (Markdown)");
                 st_markdown (strip (py "# Report"));
                 st_download_button (py "Download report as .md") data
                   (py "summary_report.md") (py "text/markdown") ]).
Proof.
  split; [reflexivity|]. split; [reflexivity|]. split; [reflexivity|].
  exact (proj1 (summarize_button_download_or_error rt_report fresh
                  (py "Mistral AI unveiled new models.") (py "# Report")
                  eq_refl eq_refl) eq_refl).
Defined.

(* ================================================================== *)
(** * Beyond the claims: prompts *)
(* ================================================================== *)

Lemma substring_app_r (p a : pystr) : substring a (p ++ a).
Proof. exists p, []. now rewrite app_nil_r. Qed.

Lemma substring_refl (a : pystr) : substring a a.
Proof. exists [], []. now rewrite app_nil_r. Qed.

Lemma substring_join (sep x : pystr) (parts : list pystr) :
  In x parts -> substring x (join sep parts).
Proof.
  induction parts as [|p rest IH]; [intros []|].
  intros [->|Hin].
  - destruct rest as [|r rest]; cbn [join].
    + apply substring_refl.
    + now exists [], (sep ++ join sep (r :: rest)).
  - destruct rest as [|r rest]; [destruct Hin|].
    destruct (IH Hin) as (pre & post & E).
    cbn [join] in *. rewrite E.
    exists (p ++ sep ++ pre), post. now rewrite <- !app_assoc.
Qed.

Ltac find_line := cbn [In]; solve [repeat (first [left; reflexivity | right])].

Ltac in_prompt := solve [apply substring_join; find_line].

(** X9.  In both files the classification prompt names every label of
    the [allowed] set, whatever the inquiry, and carries the inquiry
    verbatim: every category the normaliser can return is offered to the
    model. *)
Theorem classification_prompt_lists_every_label :
  forall (f : source_file) (inquiry : pystr),
    Forall (fun a => substring a (CLASSIFY_PROMPT_of f inquiry)) allowed
    /\ substring inquiry (CLASSIFY_PROMPT_of f inquiry).
Proof.
  intros f inquiry. split.
  - unfold allowed.
    destruct f; cbn [CLASSIFY_PROMPT_of];
      unfold Llms.CLASSIFY_PROMPT, Api.CLASSIFY_PROMPT;
      repeat constructor; in_prompt.
  - apply substring_trans with (b := py "Inquiry: " ++ inquiry);
      [apply substring_app_r|].
    destruct f; cbn [CLASSIFY_PROMPT_of];
      unfold Llms.CLASSIFY_PROMPT, Api.CLASSIFY_PROMPT; in_prompt.
Qed.

(** X10.  Every other prompt carries its caller-supplied text verbatim,
    neither escaped nor cut: the reply prompts the inquiry and the
    category, the extraction prompt the notes, the mortgage prompt the
    whole fact sheet and the customer email, the summary prompt the
    newsletter. *)
Theorem prompts_embed_their_inputs :
  forall (x y : pystr),
    (substring x (Llms.bank_support_reply_prompt x y)
     /\ substring y (Llms.bank_support_reply_prompt x y))
    /\ (substring x (Api.generate_support_reply_prompt x y)
        /\ substring y (Api.generate_support_reply_prompt x y))
    /\ substring x (Llms.extract_medical_json_prompt x)
    /\ (substring Llms.MORTGAGE_FACTS (Llms.generate_mortgage_email_prompt x)
        /\ substring x (Llms.generate_mortgage_email_prompt x))
    /\ substring x (Llms.summarize_newsletter_prompt x).
Proof.
  intros x y.
  unfold Llms.bank_support_reply_prompt, Api.generate_support_reply_prompt,
    Llms.extract_medical_json_prompt, Llms.generate_mortgage_email_prompt,
    Llms.summarize_newsletter_prompt.
  repeat split; try in_prompt;
    (apply substring_trans with (b := py "Detected category: " ++ y);
     [apply substring_app_r | in_prompt]).
Qed.

(* ================================================================== *)
(** * Beyond the claims: the label normaliser *)
(* ================================================================== *)

Lemma labels_in_spec (out a : pystr) :
  In a (labels_in out) <-> In a allowed /\ contains a out = true.
Proof. exact (filter_In (fun a => contains a out) a allowed). Qed.

(** No label of the set occurs inside another. *)
Lemma labels_in_label (a : pystr) : In a allowed -> labels_in a = [a].
Proof.
  unfold allowed. cbn [In].
  intros H; repeat (destruct H as [<-|H]; [reflexivity|]); destruct H.
Qed.

(** X11.  The iteration order of the set matters only when the text is
    ambiguous: when exactly one label occurs in the normalised text,
    [classify_inquiry] returns that label for every iteration order.  In
    particular an answer that normalises to a label is resolved to that
    label, since no label occurs inside another. *)
Theorem classify_unambiguous_is_order_independent :
  forall (rt : Runtime) (f : source_file) (inquiry : pystr) (w : world)
         (text a : pystr),
    answers w (CLASSIFY_PROMPT_of f inquiry) text ->
    (labels_in (str_lower (strip text)) = [a] ->
     returns (classify_inquiry_of f inquiry) w a)
    /\ (In a allowed -> str_lower (strip text) = a ->
        returns (classify_inquiry_of f inquiry) w a).
Proof.
  intros rt f inquiry w text a H.
  assert (labels_in (str_lower (strip text)) = [a] ->
          returns (classify_inquiry_of f inquiry) w a) as Hone.
  { intros Hl.
    pose proof (one_call_returns _ _ _ w text (classify_run f inquiry) H) as R.
    cbv beta in R.
    set (out := str_lower (strip text)) in *.
    assert (In a (labels_in out)) as Ha by (rewrite Hl; now left).
    apply labels_in_spec in Ha as [Ha1 Ha2].
    destruct (first_allowed_in_cases (set_iter allowed) out)
      as [(before & c & after_ & E & Hc & _ & Hr)|[Hn _]].
    - rewrite Hr in R.
      assert (In c (labels_in out)) as Hin.
      { apply labels_in_spec. split; [|exact Hc].
        apply set_iter_allowed. rewrite E. apply in_elt. }
      rewrite Hl in Hin. destruct Hin as [<-|[]]. exact R.
    - rewrite (Hn a) in Ha2; [discriminate|]. now apply set_iter_allowed. }
  split; [exact Hone|].
  intros Ha E. apply Hone. rewrite E. now apply labels_in_label.
Qed.

Lemma classify_unambiguous_is_order_independent_witness :
  answers (rt := rt_two_labels) fresh (CLASSIFY_PROMPT_of llms_py (py "hello")) two_labels
  /\ labels_in (ascii_lower (strip noisy_answer)) = [py "card arrival"]
  /\ answers (rt := rt_noisy) fresh (CLASSIFY_PROMPT_of llms_py (py "hello")) noisy_answer
  /\ returns (classify_inquiry_of (rt := rt_noisy) llms_py (py "hello")) fresh
       (py "card arrival").
Proof.
  split; [reflexivity|]. split; [reflexivity|]. split; [reflexivity|].
  exact (proj1 (classify_unambiguous_is_order_independent rt_noisy llms_py (py "hello")
                  fresh noisy_answer (py "card arrival") eq_refl) eq_refl).
Defined.

(** X12.  A task-level operation never turns a generation failure into a
    result: when the service fails on its prompt, the operation raises the
    same exception after that one request.  In particular
    [classify_inquiry] does not fall back to "customer service" then, and
    [extract_medical_json] does not report it as a parse error. *)
Theorem task_operations_propagate_failure :
  forall (rt : Runtime) (w : world) (e : pyexn),
    (forall f x, fails w (CLASSIFY_PROMPT_of f x) e ->
                 classify_inquiry_of f x w = (Raised e, after w (CLASSIFY_PROMPT_of f x)))
    /\ (forall x c, fails w (Llms.bank_support_reply_prompt x c) e ->
                    Llms.bank_support_reply x c w
                    = (Raised e, after w (Llms.bank_support_reply_prompt x c)))
    /\ (forall x c, fails w (Api.generate_support_reply_prompt x c) e ->
                    Api.generate_support_reply x c w
                    = (Raised e, after w (Api.generate_support_reply_prompt x c)))
    /\ (forall x, fails w (Llms.extract_medical_json_prompt x) e ->
                  Llms.extract_medical_json x w
                  = (Raised e, after w (Llms.extract_medical_json_prompt x)))
    /\ (forall x, fails w (Llms.generate_mortgage_email_prompt x) e ->
                  Llms.generate_mortgage_email x w
                  = (Raised e, after w (Llms.generate_mortgage_email_prompt x)))
    /\ (forall x, fails w (Llms.summarize_newsletter_prompt x) e ->
                  Llms.summarize_newsletter x w
                  = (Raised e, after w (Llms.summarize_newsletter_prompt x))).
Proof.
  intros rt w e. unfold fails.
  assert (forall {A} (m : M A) prompt post,
             one_call m prompt post ->
             chat_complete (calls w) (request_for prompt) = Raised e ->
             m w = (Raised e, after w prompt)) as P.
  { intros A m prompt post R H. rewrite (R w). now rewrite H. }
  repeat split; intros; eapply P; eauto with run.
Qed.

Lemma task_operations_propagate_failure_witness :
  fails (rt := rt_down) fresh (CLASSIFY_PROMPT_of llms_py (py "Where is my card?"))
    (Exception (py "service unavailable"))
  /\ Llms.classify_inquiry (rt := rt_down) (py "Where is my card?") fresh
     = (Raised (Exception (py "service unavailable")),
        World [request_for (Llms.CLASSIFY_PROMPT (py "Where is my card?"))] []).
Proof.
  split; [reflexivity|].
  exact (proj1 (task_operations_propagate_failure rt_down fresh
                  (Exception (py "service unavailable")))
           llms_py (py "Where is my card?") eq_refl).
Defined.

(* ================================================================== *)
(** * Beyond the claims: the structured-output parser *)
(* ================================================================== *)

Lemma strip_leading_space (s : pystr) (a : codepoint) :
  isspace a = true -> strip (a :: s) = strip s.
Proof. intros Ha. unfold strip, lstrip. cbn [dropwhile]. now rewrite Ha. Qed.

Lemma strip_blank_padding (pre s post : pystr) :
  blank pre = true -> blank post = true -> strip (pre ++ s ++ post) = strip s.
Proof.
  unfold blank. intros Hpre Hpost.
  induction pre as [|a pre IH]; cbn [app].
  - clear Hpre. induction post as [|b post IH] using rev_ind.
    + now rewrite app_nil_r.
    + rewrite forallb_app in Hpost. apply andb_true_iff in Hpost as [Hp Hb].
      cbn in Hb. rewrite andb_true_r in Hb.
      rewrite app_assoc, strip_trailing_space by exact Hb. now apply IH.
  - cbn [forallb] in Hpre. apply andb_true_iff in Hpre as [Ha Hpre].
    rewrite strip_leading_space by exact Ha. now apply IH.
Qed.

(** X13.  Whitespace around the model output does not change what
    [safe_json_parse] returns: the text may be padded on both sides with
    any whitespace characters, and parsing the stripped text gives the same
    result as parsing the text. *)
Theorem safe_json_parse_ignores_padding :
  forall (rt : Runtime) (text : pystr),
    Llms.safe_json_parse (strip text) = Llms.safe_json_parse text
    /\ forall pre post,
        blank pre = true -> blank post = true ->
        Llms.safe_json_parse (pre ++ text ++ post) = Llms.safe_json_parse text.
Proof.
  intros rt text. split.
  - unfold Llms.safe_json_parse, Llms.cleaned. now rewrite strip_idempotent.
  - intros pre post Hpre Hpost. unfold Llms.safe_json_parse, Llms.cleaned.
    now rewrite (strip_blank_padding pre text post Hpre Hpost).
Qed.

Lemma safe_json_parse_ignores_padding_witness :
  blank [nl; 32%N; 9%N] = true
  /\ blank [160%N; nl] = true
  /\ Llms.safe_json_parse (rt := rt_down) ([nl; 32%N; 9%N] ++ age_payload ++ [160%N; nl])
     = Llms.safe_json_parse (rt := rt_down) age_payload.
Proof.
  split; [reflexivity|]. split; [reflexivity|].
  exact (proj2 (safe_json_parse_ignores_padding rt_down age_payload)
           [nl; 32%N; 9%N] [160%N; nl] eq_refl eq_refl).
Defined.

(** X14.  A blank text reaches the decoder as the empty string, and so
    does a pair of fences with nothing between them.  With the reference
    decoder the result is then the error "Expecting value: line 1 column 1
    (char 0)" and no value: an empty model output is a parse failure. *)
Theorem blank_text_is_a_parse_error :
  forall (text : pystr),
    blank text = true ->
    Llms.cleaned text = []
    /\ Llms.cleaned (fenced (py "json") text) = []
    /\ forall service,
        Llms.safe_json_parse (rt := runtime_declared service) text
        = Ok (PNone, Some (py "Expecting value: line 1 column 1 (char 0)")).
Proof.
  intros text Hb.
  assert (strip text = []) as Hs by now apply strip_empty_blank.
  assert (Llms.cleaned text = []) as Hc
    by (unfold Llms.cleaned; now rewrite Hs).
  split; [exact Hc|]. split.
  - rewrite cleaned_fenced; [exact Hs | now left |].
    apply contains_false. intros (pre & post & E).
    assert (forallb isspace (pre ++ Llms.fence ++ post) = true) as Hall
      by (rewrite <- E; exact Hb).
    rewrite !forallb_app in Hall.
    apply andb_true_iff in Hall as [_ Hall].
    apply andb_true_iff in Hall as [Hall _]. discriminate.
  - intros service. unfold Llms.safe_json_parse. rewrite Hc. reflexivity.
Qed.

Lemma blank_text_is_a_parse_error_witness :
  blank [32%N; nl; 8195%N] = true
  /\ Llms.safe_json_parse (rt := runtime_declared unavailable) [32%N; nl; 8195%N]
     = Ok (PNone, Some (py "Expecting value: line 1 column 1 (char 0)")).
Proof.
  split; [reflexivity|].
  exact (proj2 (proj2 (blank_text_is_a_parse_error [32%N; nl; 8195%N] eq_refl))
           unavailable).
Defined.

Lemma not_in_startswith (c : codepoint) (s p : pystr) :
  ~ In c s -> startswith s (c :: p) = false.
Proof.
  destruct s as [|x s]; [reflexivity|]. intros H.
  rewrite startswith_cons.
  destruct (N.eqb_spec c x) as [->|]; [|reflexivity].
  exfalso. apply H. now left.
Qed.

Lemma not_in_contains (c : codepoint) (a s : pystr) :
  ~ In c s -> In c a -> contains a s = false.
Proof.
  intros Hs Ha. apply contains_false. intros (pre & post & ->).
  apply Hs. apply in_or_app. right. apply in_or_app. now left.
Qed.

Lemma fence_tag_has_no_fence_json (tag : pystr) :
  ~ In 96%N tag -> startswith tag (py "json") = false ->
  contains Llms.fence_json (Llms.fence ++ tag) = false.
Proof.
  intros Hb Hj.
  change Llms.fence_json with (96 :: 96 :: 96 :: py "json")%N.
  change (Llms.fence ++ tag) with (96 :: 96 :: 96 :: tag)%N.
  cbn [contains]. rewrite !startswith_cons, !N.eqb_refl. cbn [andb].
  rewrite Hj, !(not_in_startswith 96%N tag _ Hb). cbn [orb].
  apply (not_in_contains 96%N); [exact Hb | now left].
Qed.

(** X15.  Only the lower-case [json] tag is removed with the fences.  For
    a fence with another language tag (one without backticks that does not
    begin with "json") around a payload free of triple backticks, the
    decoder receives the tag, a line break and the payload: the tag is
    left in front of the JSON text. *)
Theorem other_language_tag_is_kept :
  forall (rt : Runtime) (tag payload : pystr),
    ~ In 96%N tag ->
    startswith tag (py "json") = false ->
    contains Llms.fence payload = false ->
    Llms.cleaned (fenced tag payload) = strip (tag ++ nl :: payload)
    /\ Llms.safe_json_parse (fenced tag payload)
       = match json_loads (strip (tag ++ nl :: payload)) with
         | Ok data => Ok (data, None)
         | Raised e => Ok (PNone, Some (str_exn e))
         end.
Proof.
  intros rt tag payload Hb Hj Hp.
  assert (Llms.cleaned (fenced tag payload) = strip (tag ++ nl :: payload)) as E.
  { unfold Llms.cleaned.
    rewrite (trimmed_strip _ (fenced_trimmed tag payload)).
    unfold fenced at 1. rewrite startswith_app.
    rewrite replace_fence_eq, replace_fence_json_eq.
    unfold fenced.
    replace (Llms.fence ++ tag ++ nl :: payload ++ nl :: Llms.fence)
      with ((Llms.fence ++ tag) ++ nl :: (payload ++ nl :: Llms.fence))
      by now rewrite <- app_assoc.
    rewrite (replace_from_sep Llms.fence_json [] (payload ++ nl :: Llms.fence) nl
               ltac:(discriminate) ltac:(cbv; intuition discriminate)
               (Llms.fence ++ tag) 0 (Nat.le_0_l _)).
    rewrite (replace_from_none _ _ _ (fence_tag_has_no_fence_json tag Hb Hj)).
    rewrite (replace_fence_json_body payload Hp).
    rewrite (replace_from_sep Llms.fence [] (payload ++ nl :: Llms.fence) nl
               ltac:(discriminate) ltac:(cbv; intuition discriminate)
               (Llms.fence ++ tag) 0 (Nat.le_0_l _)).
    rewrite (replace_fence_body payload Hp).
    change (replace_from Llms.fence [] 0 (Llms.fence ++ tag)) with (unfence tag).
    unfold unfence.
    rewrite (replace_from_none Llms.fence [] tag)
      by (apply (not_in_contains 96%N); [exact Hb | now left]).
    replace (tag ++ nl :: payload ++ [nl]) with ((tag ++ nl :: payload) ++ [nl])
      by now rewrite <- app_assoc.
    now apply strip_trailing_space. }
  split; [exact E|]. unfold Llms.safe_json_parse. now rewrite E.
Qed.

Lemma other_language_tag_is_kept_witness :
  ~ In 96%N (py "JSON")
  /\ startswith (py "JSON") (py "json") = false
  /\ contains Llms.fence age_payload = false
  /\ Llms.cleaned (fenced (py "JSON") age_payload) = py "JSON" ++ nl :: age_payload
  /\ Llms.safe_json_parse (rt := rt_down) (fenced (py "JSON") age_payload)
     = Ok (PNone, Some (py "Expecting value: line 1 column 1 (char 0)")).
Proof.
  assert (~ In 96%N (py "JSON")) as Hb by (cbv; intuition discriminate).
  split; [exact Hb|]. split; [reflexivity|]. split; [reflexivity|].
  split.
  - exact (proj1 (other_language_tag_is_kept rt_down (py "JSON") age_payload
                    Hb eq_refl eq_refl)).
  - exact (proj2 (other_language_tag_is_kept rt_down (py "JSON") age_payload
                    Hb eq_refl eq_refl)).
Defined.

(** X16.  [safe_json_parse] never returns both a value and an error: a
    value other than [None] comes with no error, and an error comes with
    the value [None].  It returns neither exactly when the cleaned text
    decodes to the JSON literal [null]. *)
Theorem safe_json_parse_value_xor_error :
  forall (rt : Runtime) (text : pystr) (data : pyval) (err : option pystr),
    Llms.safe_json_parse text = Ok (data, err) ->
    (is_not_None data = true -> err = None)
    /\ (forall msg, err = Some msg -> data = PNone)
    /\ ((data = PNone /\ err = None) <-> json_loads (Llms.cleaned text) = Ok PNone).
Proof.
  intros rt text data err. unfold Llms.safe_json_parse.
  destruct (json_loads (Llms.cleaned text)) as [v|e]; intros [= <- <-].
  - split; [reflexivity|]. split; [intros msg [=]|].
    split; [intros [-> _]; reflexivity | intros [= ->]; now split].
  - split; [intros [=]|]. split; [reflexivity|].
    split; [intros [_ [=]] | intros [=]].
Qed.

Lemma safe_json_parse_value_xor_error_witness :
  Llms.safe_json_parse (rt := rt_null) (py " null ") = Ok (PNone, None)
  /\ ((PNone = PNone /\ @None pystr = None)
      <-> json_loads (Runtime := rt_null) (Llms.cleaned (py " null ")) = Ok PNone).
Proof.
  split; [reflexivity|].
  exact (proj2 (proj2 (safe_json_parse_value_xor_error rt_null (py " null ") PNone None
                         eq_refl))).
Defined.

(** X17.  An extraction result is consistent with its raw text: the
    value and the error that [extract_medical_json] returns are what
    [safe_json_parse] gives on the raw text it returns beside them, and on
    the unstripped model output as well; the raw text is the stripped
    model output. *)
Theorem extraction_result_matches_its_raw_text :
  forall (rt : Runtime) (notes : pystr) (w : world) (raw : pystr) (data : pyval)
         (err : option pystr),
    returns (Llms.extract_medical_json notes) w (raw, data, err) ->
    Llms.safe_json_parse raw = Ok (data, err)
    /\ exists text,
        answers w (Llms.extract_medical_json_prompt notes) text
        /\ raw = strip text
        /\ Llms.safe_json_parse text = Ok (data, err).
Proof.
  intros rt notes w raw data err R.
  destruct (one_call_inv _ _ _ w _ (extract_medical_json_run notes) R)
    as (text & Ha & E).
  injection E as -> -> ->.
  assert (Llms.safe_json_parse (strip text)
          = Ok (fst (parsed (strip text)), snd (parsed (strip text)))) as P
    by (rewrite safe_json_parse_total; now destruct (parsed (strip text))).
  split; [exact P|]. exists text. repeat split; auto.
  rewrite <- P. unfold Llms.safe_json_parse, Llms.cleaned.
  now rewrite strip_idempotent.
Qed.

Lemma extraction_result_matches_its_raw_text_witness :
  returns (Llms.extract_medical_json (rt := rt_fenced_age) (py "A 30-year-old patient"))
    fresh (fenced (py "json") age_payload, PDict [(py "age", PInt 30)], None)
  /\ Llms.safe_json_parse (rt := rt_fenced_age) (fenced (py "json") age_payload)
     = Ok (PDict [(py "age", PInt 30)], None).
Proof.
  assert (returns (Llms.extract_medical_json (rt := rt_fenced_age)
                     (py "A 30-year-old patient"))
            fresh (fenced (py "json") age_payload, PDict [(py "age", PInt 30)], None))
    as R by reflexivity.
  split; [exact R|].
  exact (proj1 (extraction_result_matches_its_raw_text rt_fenced_age
                  (py "A 30-year-old patient") fresh _ _ _ R)).
Defined.
